(** * Hardware Inventory Scanner: the session service and the interactive tool

    A shallow embedding of [backend/main.py] (the FastAPI service that keeps
    scan sessions in a process-wide dict and exports them as a spreadsheet)
    and of [process_vision_data] in [app.py] (the Streamlit tool), followed
    by the properties the specification states about them.

    Conventions of the embedding
    - a Python dict with string keys is a [gmap string _]; a Python list is a
      [list]; [len] is [length];
    - a Python [str] is the [string] of the bytes of its UTF-8 encoding: a
      character is a byte that is no continuation byte together with the
      continuation bytes after it. Text that has no UTF-8 encoding (a lone
      surrogate) is not in the model;
    - an exception is a value of [exn]; a call that may raise returns a
      [result]; a handler that lets an exception out answers with it;
    - the module-level dict [sessions] and the number of calls made to the
      client of the vision endpoint so far form the [state] threaded through
      the handlers. That number counts calls of
      [client.chat.completions.create], not the HTTP requests the client
      sends for them: see [requests_on_wire];
    - the vision endpoint, the process environment and the clock are inputs:
      a [world] answers the calls, and every [datetime.now()] of a handler is
      an argument of its model;
    - a worksheet is the map of its cells by [(row, column)];
      [ws.cell(row, column, value)] binds the value as [openpyxl] does: it
      refuses a list, a dict and a string with a control character, and cuts
      a string after 32767 characters. The texts of exceptions that the model
      does not compute are a parameter, [python_text];
    - the model of a handler ends where the handler returns or raises; the
      bytes [wb.save] writes are not part of it. *)

From Stdlib Require Import ZArith NArith Ascii String.
From Stdlib.Strings Require Import Byte.
From stdpp Require Import gmap strings list fin_maps pretty.

Set Warnings "-register-all".
#[local] Open Scope string_scope.
#[local] Open Scope list_scope.

(** ** Python values *)

Module Py.

(** What [json.loads] can return. A float keeps its literal. *)
Inductive pyobj : Type :=
  | PyNone
  | PyBool (b : bool)
  | PyInt (n : Z)
  | PyFloat (lit : string)
  | PyStr (s : string)
  | PyList (l : list pyobj)
  | PyDict (d : gmap string pyobj).

(** [type(v).__name__] *)
Definition type_name (v : pyobj) : string :=
  match v with
  | PyNone => "NoneType"
  | PyBool _ => "bool"
  | PyInt _ => "int"
  | PyFloat _ => "float"
  | PyStr _ => "str"
  | PyList _ => "list"
  | PyDict _ => "dict"
  end.

(** Exceptions: FastAPI's [HTTPException], and any other exception [e],
    kept as [str(e)]. *)
Inductive exn : Type :=
  | HTTPException (status_code : nat) (detail : string)
  | Exception (text : string).

Inductive result (A : Type) : Type :=
  | Ok (a : A)
  | Raise (e : exn).
Arguments Ok {A} a.
Arguments Raise {A} e.

#[export] Instance result_ret : MRet result := fun A a => Ok a.
#[export] Instance result_bind : MBind result := fun A B f m =>
  match m with
  | Ok a => f a
  | Raise e => Raise e
  end.

(** [d.get(k, default)] *)
Definition dict_get (d : gmap string pyobj) (k : string) (default : pyobj) : pyobj :=
  match d !! k with
  | Some v => v
  | None => default
  end.

(** [v[k] = x] with a string key [k]: only a dict takes it. *)
Definition setitem (v : pyobj) (k : string) (x : pyobj) : result (gmap string pyobj) :=
  match v with
  | PyDict d => Ok (<[k := x]> d)
  | PyList _ => Raise (Exception "list indices must be integers or slices, not str")
  | _ => Raise (Exception ("'" +:+ type_name v +:+ "' object does not support item assignment"))
  end.

(** [str(KeyError(k))] *)
Definition KeyError (k : string) : exn := Exception ("'" +:+ k +:+ "'").

(** [enumerate(l, start)] *)
Fixpoint enumerate {A : Type} (start : nat) (l : list A) : list (nat * A) :=
  match l with
  | [] => []
  | x :: l' => (start, x) :: enumerate (S start) l'
  end.

(** A [for] loop whose body may raise: the first exception ends it. *)
Fixpoint for_each {A B : Type} (body : A -> B -> result A) (a : A) (l : list B) : result A :=
  match l with
  | [] => Ok a
  | x :: l' =>
    match body a x with
    | Ok a' => for_each body a' l'
    | Raise e => Raise e
    end
  end.

(** A continuation byte of UTF-8, [10xxxxxx]. *)
Definition continuation (a : ascii) : bool :=
  let n := N_of_ascii a in (128 <=? n)%N && (n <? 192)%N.

(** [len(s)]: the number of characters. *)
Fixpoint py_len (s : string) : N :=
  match s with
  | EmptyString => 0%N
  | String a s' => if continuation a then py_len s' else N.succ (py_len s')
  end.

(** [s[:n]]: the first [n] characters. *)
Fixpoint take_chars (n : N) (s : string) : string :=
  match s with
  | EmptyString => EmptyString
  | String a s' =>
    if continuation a then String a (take_chars n s')
    else if (n =? 0)%N then EmptyString
    else String a (take_chars (N.pred n) s')
  end.

(** Whether [s.encode("latin-1")] succeeds: every character has a code below
    256, which in UTF-8 is to say that no byte is above [0xC3]. *)
Definition latin1 (s : string) : bool :=
  forallb (fun a => (N_of_ascii a <? 196)%N) (list_ascii_of_string s).

(** The texts that Python gives and the model takes as given. *)
Record python_text : Type := {
  repr_of : pyobj -> string;       (* [repr(v)] *)
  latin1_error : string -> string  (* [str(e)] for the [UnicodeEncodeError] of [s.encode("latin-1")] *)
}.

End Py.
Export Py.

(** ** The vision endpoint *)

(** The outcome of one [client.chat.completions.create(...)] followed by
    [json.loads] of the returned content. *)
Inductive vision_reply : Type :=
  | ApiError (e : string)   (* the call raised (authentication, network, ...): [str(e)] *)
  | BadJson (e : string)    (* content came back and [json.loads] raised: [str(e)] *)
  | Json (v : pyobj).       (* [json.loads(content)] *)

(** The client and its endpoint as an oracle: the outcome of the [n]-th call
    of [create] ever made, for the API key and the base64 image it carries. *)
Record world : Type := {
  groq : nat -> string -> string -> vision_reply
}.


(** [str(e)] of the exception a reply stands for, if it stands for one. *)
Definition failure_text (r : vision_reply) : option string :=
  match r with
  | ApiError e | BadJson e => Some e
  | Json _ => None
  end.

(** ** backend/main.py *)

Module Backend.

(** *** Models *)

Record ImageRequest : Type := {
  session_id : string;
  image_base64 : string
}.

Record HardwareData : Type := {
  capacity : string;
  generation : string;
  brand : string;
  speed : string;
  timestamp : option string
}.

Record ProcessResponse : Type := {
  success : bool;
  data : option HardwareData;
  error : option string;
  scan_count : nat
}.

(** One entry of the dict [sessions]: [{"items": [...], "started_at": ...}]. *)
Record session : Type := {
  items : list (gmap string pyobj);
  started_at : string
}.

Record state : Type := {
  sessions : gmap string session;
  calls : nat
}.

(** One request to [POST /api/process-image] with the readings of the clock
    at lines 115 and 123. *)
Record submission : Type := {
  request : ImageRequest;
  at_iso : string;
  at_stamp : string
}.

(** The dict with the keys ["session_id"] and ["message"] that
    [start_session] and [end_session] return. *)
Record SessionMessage : Type := {
  about_session : string;
  message : string
}.

Definition new_session (now_iso : string) : session :=
  {| items := []; started_at := now_iso |}.

(** The field defaults of [HardwareData]. *)
Definition NA : string := "N/A".

(** *** extract_hardware_info

    [environ_key] is [os.environ.get("GROQ_API_KEY")]. Returns the outcome
    and the number of calls of [create] made so far. *)
Definition extract_hardware_info (w : world) (environ_key : option string)
    (sent : nat) (image : string) : result pyobj * nat :=
  match environ_key with
  | None | Some "" => (Raise (HTTPException 500 "GROQ_API_KEY not configured"), sent)
  | Some api_key =>
    match groq w sent api_key image with
    | Json v => (Ok v, S sent)
    | ApiError e | BadJson e => (Raise (HTTPException 500 e), S sent)
    end
  end.

Section Service.

(** Pydantic's validation of a value given for a [str] field ([None] when
    it is refused) and the text of the [ValidationError] it raises for the
    keyword arguments. A missing keyword never reaches the validator: the
    field takes its default. *)
Variable validate_str : pyobj -> option string.
Variable validation_error : gmap string pyobj -> string.

Variable w : world.
Variable environ_key : option string.

(** A [str = "N/A"] field. *)
Definition str_field (kw : gmap string pyobj) (k : string) : option string :=
  match kw !! k with
  | None => Some NA
  | Some v => validate_str v
  end.

(** The [Optional[str] = None] field. *)
Definition opt_str_field (kw : gmap string pyobj) (k : string) : option (option string) :=
  match kw !! k with
  | None | Some PyNone => Some None
  | Some v => Some <$> validate_str v
  end.

(** [HardwareData] built from the keyword arguments [kw]; keywords that
    are no field are ignored. *)
Definition HardwareData_new (kw : gmap string pyobj) : result HardwareData :=
  match str_field kw "capacity", str_field kw "generation",
        str_field kw "brand", str_field kw "speed",
        opt_str_field kw "timestamp" with
  | Some c, Some g, Some b, Some s, Some t =>
    Ok {| capacity := c; generation := g; brand := b; speed := s; timestamp := t |}
  | _, _, _, _, _ => Raise (Exception (validation_error kw))
  end.

(** *** Endpoints *)

(** [POST /api/start-session]; [now_id] is [now().strftime("%Y%m%d_%H%M%S")]. *)
Definition start_session (st : state) (now_id now_iso : string) : state * SessionMessage :=
  ({| sessions := <[now_id := new_session now_iso]> (sessions st); calls := calls st |},
   {| about_session := now_id; message := "Session started" |}).

(** Lines 111-116: create the session unless it is there. *)
Definition ensure_session (ss : gmap string session) (sid now_iso : string) : gmap string session :=
  match ss !! sid with
  | Some _ => ss
  | None => <[sid := new_session now_iso]> ss
  end.

(** [sessions[sid]["items"]] *)
Definition session_items (ss : gmap string session) (sid : string) : result (list (gmap string pyobj)) :=
  match ss !! sid with
  | Some s => Ok (items s)
  | None => Raise (KeyError sid)
  end.

(** [sessions[sid]["items"].append(x)] *)
Definition append_item (ss : gmap string session) (sid : string) (x : gmap string pyobj) :
    result (gmap string session) :=
  match ss !! sid with
  | Some s => Ok (<[sid := {| items := items s ++ [x]; started_at := started_at s |}]> ss)
  | None => Raise (KeyError sid)
  end.

(** The body of the [try] of [process_image], lines 119-132. *)
Definition scan (st : state) (request : ImageRequest) (now_stamp : string) :
    state * result ProcessResponse :=
  let sid := session_id request in
  let '(extracted, sent) := extract_hardware_info w environ_key (calls st) (image_base64 request) in
  let st1 := {| sessions := sessions st; calls := sent |} in
  match extracted with
  | Raise e => (st1, Raise e)
  | Ok v =>
    match setitem v "timestamp" (PyStr now_stamp) with
    | Raise e => (st1, Raise e)
    | Ok result =>
      match append_item (sessions st1) sid result with
      | Raise e => (st1, Raise e)
      | Ok ss =>
        ({| sessions := ss; calls := sent |},
         d ← HardwareData_new result;
         its ← session_items ss sid;
         Ok {| success := true; data := Some d; error := None;
               scan_count := length its |})
      end
    end
  end.

(** [ProcessResponse(success=False, error=...)] *)
Definition rejected (msg : string) : ProcessResponse :=
  {| success := false; data := None; error := Some msg; scan_count := 0 |}.

(** The two [except] clauses, lines 133-136. *)
Definition on_exception (e : exn) : ProcessResponse :=
  match e with
  | HTTPException _ detail => rejected detail
  | Exception text => rejected text
  end.

(** [POST /api/process-image] *)
Definition process_image (st : state) (request : ImageRequest) (now_iso now_stamp : string) :
    state * ProcessResponse :=
  let st0 := {| sessions := ensure_session (sessions st) (session_id request) now_iso;
                calls := calls st |} in
  let '(st1, r) := scan st0 request now_stamp in
  (st1, match r with
        | Ok response => response
        | Raise e => on_exception e
        end).

(** *** Runs of submissions *)

(** A run of [POST /api/process-image] requests, each with its two clock
    readings. *)
Definition submit_all (st : state) (subs : list submission) : state :=
  foldl (fun st sub =>
           (process_image st (request sub) (at_iso sub) (at_stamp sub)).1) st subs.

(** The record a submission adds to its session, if any, when [sent] calls
    of [create] were made before it, and the number made after. *)
Definition stored_record (sent : nat) (sub : submission) : option (gmap string pyobj) * nat :=
  let '(extracted, sent') :=
    extract_hardware_info w environ_key sent (image_base64 (request sub)) in
  (match extracted with
   | Ok v =>
     match setitem v "timestamp" (PyStr (at_stamp sub)) with
     | Ok record => Some record
     | Raise _ => None
     end
   | Raise _ => None
   end, sent').

(** The records a run adds to session [sid], in the order of the run. *)
Fixpoint stored_records (sid : string) (sent : nat) (subs : list submission) :
    list (gmap string pyobj) :=
  match subs with
  | [] => []
  | sub :: subs' =>
    (if decide (session_id (request sub) = sid)
     then option_list (stored_record sent sub).1 else [])
    ++ stored_records sid (stored_record sent sub).2 subs'
  end.

End Service.

(** The body of [GET /api/session/{session_id}]'s answer. *)
Record SessionView : Type := {
  view_session_id : string;
  view_items : list (gmap string pyobj);
  view_scan_count : nat;
  view_started_at : string
}.

Definition not_found : exn := HTTPException 404 "Session not found".

(** [GET /api/session/{session_id}] *)
Definition get_session (st : state) (sid : string) : state * result SessionView :=
  match sessions st !! sid with
  | None => (st, Raise not_found)
  | Some s =>
    (st, Ok {| view_session_id := sid; view_items := items s;
               view_scan_count := length (items s);
               view_started_at := started_at s |})
  end.

(** [DELETE /api/session/{session_id}] *)
Definition end_session (st : state) (sid : string) : state * SessionMessage :=
  (match sessions st !! sid with
   | Some _ => {| sessions := delete sid (sessions st); calls := calls st |}
   | None => st
   end,
   {| about_session := sid; message := "Session ended" |}).

(** *** The workbook of the export *)

Record cell : Type := {
  value : pyobj;
  bold : bool
}.

(** A worksheet keeps its cells by [(row, column)], both counted from 1. *)
Record worksheet : Type := {
  title : string;
  cells : gmap (nat * nat) cell
}.

Record workbook : Type := {
  sheets : list worksheet
}.

(** [cell.value] at [(r, c)], [None] where the sheet has no cell. *)
Definition cell_value (ws : worksheet) (r c : nat) : pyobj :=
  from_option value PyNone (cells ws !! (r, c)).

(** The cell at [(r, c)] with the value [stored]: it is created when it is
    not there, and keeps its font when it is. *)
Definition put_cell (r c : nat) (stored : pyobj) (ws : worksheet) : worksheet :=
  {| title := title ws;
     cells := <[(r, c) := {| value := stored;
                             bold := from_option bold false (cells ws !! (r, c)) |}]>
              (cells ws) |}.

(** The characters of [openpyxl]'s [ILLEGAL_CHARACTERS_RE]: the control
    characters other than tab, line feed and carriage return. *)
Definition illegal_character (a : ascii) : bool :=
  let n := N_of_ascii a in
  (n <=? 8)%N || (n =? 11)%N || (n =? 12)%N || ((14 <=? n)%N && (n <=? 31)%N).

Definition has_illegal_character (s : string) : bool :=
  existsb illegal_character (list_ascii_of_string s).

Section Exporting.

Variable texts : python_text.

(** What [cell.value = v] binds for a [v] that is not [None]: a list or a
    dict is refused with a [ValueError]; a string is cut after 32767
    characters and refused with an [IllegalCharacterError] when what is left
    has a control character; a bool or a number is kept. *)
Definition bind_value (v : pyobj) : result pyobj :=
  match v with
  | PyList _ | PyDict _ =>
    Raise (Exception ("Cannot convert " +:+ repr_of texts v +:+ " to Excel"))
  | PyStr s =>
    let s' := take_chars 32767 s in
    if has_illegal_character s'
    then Raise (Exception (s' +:+ " cannot be used in worksheets."))
    else Ok (PyStr s')
  | _ => Ok v
  end.

(** [ws.cell(row=r, column=c, value=v)]: a [v] that is [None] leaves the
    value of the cell as it was, any other is bound. *)
Definition ws_cell (r c : nat) (v : pyobj) (ws : worksheet) : result worksheet :=
  match v with
  | PyNone => Ok (put_cell r c (cell_value ws r c) ws)
  | _ => stored ← bind_value v; Ok (put_cell r c stored ws)
  end.

(** [ws.cell(row=r, column=c).font = ws.cell(row=r, column=c).font.copy(bold=True)] *)
Definition ws_bold (r c : nat) (ws : worksheet) : worksheet :=
  {| title := title ws;
     cells := <[(r, c) := {| value := from_option value PyNone (cells ws !! (r, c));
                             bold := true |}]> (cells ws) |}.

(** [ws.max_row] and [ws.max_column]: 1 for a sheet without cells. *)
Definition max_row (ws : worksheet) : nat :=
  1 `max` max_list (fst <$> elements (dom (cells ws))).

Definition max_column (ws : worksheet) : nat :=
  1 `max` max_list (snd <$> elements (dom (cells ws))).

(** [list(ws.values)]: the rows of the sheet, top to bottom. *)
Definition ws_values (ws : worksheet) : list (list pyobj) :=
  (fun r => cell_value ws r <$> seq 1 (max_column ws)) <$> seq 1 (max_row ws).

Definition headers : list string :=
  ["#"; "Brand"; "Capacity"; "Generation"; "Speed (MHz)"; "Scanned At"].

(** One turn of the loop of lines 171-173. *)
Definition write_header (ws : worksheet) (h : nat * string) : result worksheet :=
  ws' ← ws_cell 1 h.1 (PyStr h.2) ws;
  Ok (ws_bold 1 h.1 ws').

(** One turn of the loop of lines 176-182. *)
Definition write_item (ws : worksheet) (it : nat * gmap string pyobj) : result worksheet :=
  let idx := it.1 in
  let item := it.2 in
  ws1 ← ws_cell (idx + 1) 1 (PyInt (Z.of_nat idx)) ws;
  ws2 ← ws_cell (idx + 1) 2 (dict_get item "brand" (PyStr "N/A")) ws1;
  ws3 ← ws_cell (idx + 1) 3 (dict_get item "capacity" (PyStr "N/A")) ws2;
  ws4 ← ws_cell (idx + 1) 4 (dict_get item "generation" (PyStr "N/A")) ws3;
  ws5 ← ws_cell (idx + 1) 5 (dict_get item "speed" (PyStr "N/A")) ws4;
  ws_cell (idx + 1) 6 (dict_get item "timestamp" (PyStr "N/A")) ws5.

(** [Workbook()] has one sheet, the active one. *)
Definition Workbook : workbook := {| sheets := [ {| title := "Sheet"; cells := ∅ |} ] |}.

(** Lines 165-182 on the active sheet [ws]. *)
Definition fill_sheet (ws : worksheet) (its : list (gmap string pyobj)) : result worksheet :=
  let ws1 := {| title := "Hardware Inventory"; cells := cells ws |} in
  ws2 ← for_each write_header ws1 (enumerate 1 headers);
  for_each write_item ws2 (enumerate 1 its).

Definition build_workbook (its : list (gmap string pyobj)) : result workbook :=
  match sheets Workbook with
  | ws :: others => ws' ← fill_sheet ws its; Ok {| sheets := ws' :: others |}
  | [] => Ok Workbook
  end.

Record StreamingResponse : Type := {
  body : workbook;
  media_type : string;
  content_disposition : string
}.

(** [StreamingResponse(buffer, media_type=..., headers={"Content-Disposition":
    disposition})]: the value of the header is encoded as Latin-1 when the
    response is built, and a character outside Latin-1 raises. *)
Definition StreamingResponse_new (content : workbook) (media disposition : string) :
    result StreamingResponse :=
  if latin1 disposition
  then Ok {| body := content; media_type := media; content_disposition := disposition |}
  else Raise (Exception (latin1_error texts disposition)).

(** [GET /api/export/{session_id}] *)
Definition export_session (st : state) (sid : string) : state * result StreamingResponse :=
  match sessions st !! sid with
  | None => (st, Raise not_found)
  | Some s =>
    match items s with
    | [] => (st, Raise (HTTPException 400 "No items to export"))
    | its =>
      (st,
       wb ← build_workbook its;
       StreamingResponse_new wb
         "application/vnd.openxmlformats-officedocument.spreadsheetml.sheet"
         ("attachment; filename=" +:+ "hardware_inventory_" +:+ sid +:+ ".xlsx"))
    end
  end.

End Exporting.

(** *** What the handlers are expected to show

    Reference values the properties below compare the handlers with. *)

(** The keys of a record that the export reads (lines 178-182), in the
    order of their columns. *)
Definition exported_keys : list string :=
  ["brand"; "capacity"; "generation"; "speed"; "timestamp"].

(** Whether a cell takes the value: it is no list and no dict, and as a
    string it has no control character among its first 32767 characters. *)
Definition accepted (v : pyobj) : bool :=
  match v with
  | PyList _ | PyDict _ => false
  | PyStr s => negb (has_illegal_character (take_chars 32767 s))
  | _ => true
  end.

(** What a cell shows for a value it took: the value, a string by its first
    32767 characters. *)
Definition shown (v : pyobj) : pyobj :=
  match v with
  | PyStr s => PyStr (take_chars 32767 s)
  | _ => v
  end.

(** The value the export writes for the key [k] of a record. *)
Definition exported (item : gmap string pyobj) (k : string) : pyobj :=
  default (PyStr "N/A") (item !! k).

(** A record all of whose exported values a cell takes. *)
Definition exportable (item : gmap string pyobj) : Prop :=
  forall k, k ∈ exported_keys -> accepted (exported item k) = true.

(** A value that a cell shows as it is: accepted, and as a string of at most
    32767 characters. *)
Definition plain (v : pyobj) : Prop :=
  accepted v = true /\
  match v with
  | PyStr s => (py_len s <= 32767)%N
  | _ => True
  end.

(** The row the export writes for the record numbered [idx]. *)
Definition row_of (idx : nat) (item : gmap string pyobj) : list pyobj :=
  PyInt (Z.of_nat idx) :: ((fun k => shown (exported item k)) <$> exported_keys).

(** The cell of the finished sheet at [(r, c)], for the records [its]. *)
Definition sheet_cell (its : list (gmap string pyobj)) (r c : nat) : option cell :=
  if decide (1 <= c <= 6) then
    match r with
    | 0 => None
    | 1 => Some {| value := PyStr (nth (c - 1) headers ""); bold := true |}
    | S (S i) =>
      (fun item => {| value := nth (c - 1) (row_of (S i) item) PyNone; bold := false |})
        <$> its !! i
    end
  else None.

(** The sheet [Workbook()] starts with. *)
Definition blank : worksheet := {| title := "Sheet"; cells := ∅ |}.

(** What an accepted [ws.cell(row=r, column=c, value=v)] leaves. *)
Definition put_value (r c : nat) (v : pyobj) (ws : worksheet) : worksheet :=
  put_cell r c (match v with
                | PyNone => cell_value ws r c
                | _ => shown v
                end) ws.

(** What the loops of lines 171-182 leave when no cell refuses its value. *)
Definition put_header (ws : worksheet) (h : nat * string) : worksheet :=
  ws_bold 1 h.1 (put_value 1 h.1 (PyStr h.2) ws).

Definition put_item (ws : worksheet) (it : nat * gmap string pyobj) : worksheet :=
  let idx := it.1 in
  let item := it.2 in
  put_value (idx + 1) 6 (exported item "timestamp")
    (put_value (idx + 1) 5 (exported item "speed")
      (put_value (idx + 1) 4 (exported item "generation")
        (put_value (idx + 1) 3 (exported item "capacity")
          (put_value (idx + 1) 2 (exported item "brand")
            (put_value (idx + 1) 1 (PyInt (Z.of_nat idx)) ws))))).

Definition put_sheet (ws : worksheet) (its : list (gmap string pyobj)) : worksheet :=
  foldl put_item
    (foldl put_header {| title := "Hardware Inventory"; cells := cells ws |}
       (enumerate 1 headers))
    (enumerate 1 its).

(** What the body of the [try] leaves in the store: either the store it
    started from, or that store with one record more at the end of the
    targeted session. *)
Inductive scan_outcome (st : state) (request : ImageRequest) :
    state * result ProcessResponse -> Prop :=
  | scan_raised e sent :
      scan_outcome st request ({| sessions := sessions st; calls := sent |}, Raise e)
  | scan_stored s record sent r :
      sessions st !! session_id request = Some s ->
      (forall response, r = Ok response ->
         success response = true /\ is_Some (data response) /\
         scan_count response = S (length (items s))) ->
      scan_outcome st request
        ({| sessions := <[session_id request :=
                           {| items := items s ++ [record]; started_at := started_at s |}]>
                        (sessions st);
            calls := sent |}, r).

(** The rows of a sheet for the records [its]: the header, then one row per
    record, numbered from 1. *)
Definition sheet_rows (its : list (gmap string pyobj)) : list (list pyobj) :=
  (PyStr <$> headers) :: imap (fun i item => row_of (S i) item) its.

(** The text of a field of a reply: the string given for it, and the
    default of [HardwareData] where the reply has none. *)
Definition text_or_NA (d : gmap string pyobj) (k : string) : string :=
  match d !! k with
  | Some (PyStr s) => s
  | _ => NA
  end.

(** *** Column widths, lines 184-195 *)

Section Widths.

(** [len(str(v))] for a cell value [v]. *)
Variable str_len : pyobj -> nat.

(** One column of [ws.columns]: its cells from the first row to the last. *)
Definition column_cells (ws : worksheet) (c : nat) : list pyobj :=
  (fun r => cell_value ws r c) <$> seq 1 (max_row ws).

(** The inner loop, lines 188-193. *)
Definition longest (column : list pyobj) : nat :=
  foldl (fun max_length v =>
           if decide (max_length < str_len v) then str_len v else max_length)
        0 column.

(** The outer loop: [ws.column_dimensions], here by the number of the column
    in place of its letter. A sheet without cells has no columns. *)
Definition adjust_widths (ws : worksheet) : gmap nat nat :=
  if decide (dom (cells ws) = ∅) then ∅
  else foldl (fun dims c => <[c := longest (column_cells ws c) + 2]> dims)
             ∅ (seq 1 (max_column ws)).

End Widths.

End Backend.

(** ** app.py *)

Module App.

Section Tool.

(** [base64.b64encode(b).decode('utf-8')] *)
Variable b64encode : list Byte.byte -> string.
Variable w : world.
(** The module-level [GROQ_API_KEY]. *)
Variable GROQ_API_KEY : string.

(** [process_vision_data(image_file)], with [image] the bytes of the file.
    Returns the dict and the number of calls of [create] made so far. *)
Definition process_vision_data (sent : nat) (image : list Byte.byte) : pyobj * nat :=
  let base64_image := b64encode image in
  match groq w sent GROQ_API_KEY base64_image with
  | Json v => (v, S sent)
  | ApiError e | BadJson e => (PyDict {[ "error" := PyStr e ]}, S sent)
  end.

(** What the page shows after the button, lines 202-254: the error box, or
    the five metric boxes and the raw JSON. The values are the objects the
    f-strings interpolate. *)
Inductive screen : Type :=
  | ErrorBox (text : pyobj)
  | Metrics (form_factor brand capacity generation speed raw : pyobj).

(** Lines 202-254 for the value [process_vision_data] returned; [None] when
    the script raises, which it does for a value that is no dict: its
    ["error" in ...], its [...['error']] or its [.get] fails. *)
Definition display (extracted_data : pyobj) : option screen :=
  match extracted_data with
  | PyDict d =>
    match d !! "error" with
    | Some e => Some (ErrorBox e)
    | None =>
      Some (Metrics (dict_get d "form_factor" (PyStr "N/A"))
                    (dict_get d "brand" (PyStr "N/A"))
                    (dict_get d "capacity" (PyStr "N/A"))
                    (dict_get d "generation" (PyStr "N/A"))
                    (dict_get d "speed" (PyStr "N/A"))
                    extracted_data)
    end
  | _ => None
  end.

(** The handler of the button, lines 196-254. *)
Definition on_extract (sent : nat) (image : list Byte.byte) : option screen * nat :=
  let '(extracted_data, sent') := process_vision_data sent image in
  (display extracted_data, sent').

End Tool.

End App.

(** ** Sample inputs *)

Module Sample.
Import Backend.

(** A validator that accepts strings only, as Pydantic 2 does. *)
Definition strict_str (v : pyobj) : option string :=
  match v with
  | PyStr s => Some s
  | _ => None
  end.

Definition strict_error (kw : gmap string pyobj) : string :=
  "validation error for HardwareData".

Definition full_label : gmap string pyobj :=
  <["capacity" := PyStr "8GB"]> (<["generation" := PyStr "DDR4"]>
    (<["brand" := PyStr "Kingston"]> (<["speed" := PyStr "3200"]> ∅))).

Definition partial_label : gmap string pyobj :=
  <["capacity" := PyStr "16GB"]> ∅.

(** An endpoint that answers by the image alone. *)
Definition by_image (image : string) : vision_reply :=
  if decide (image = "full") then Json (PyDict full_label)
  else if decide (image = "partial") then Json (PyDict partial_label)
  else if decide (image = "null-brand") then Json (PyDict (<["brand" := PyNone]> partial_label))
  else if decide (image = "array") then Json (PyList [])
  else if decide (image = "garbled") then BadJson "Expecting value: line 1 column 1 (char 0)"
  else ApiError "Connection error.".

Definition lab : world := {| groq := fun _ _ image => by_image image |}.

Definition key : option string := Some "gsk_test".

Definition empty_state : state := {| sessions := ∅; calls := 0 |}.

Definition submit (st : state) (sid image : string) (now_iso now_stamp : string) :
    state * ProcessResponse :=
  process_image strict_str strict_error lab key st
    {| session_id := sid; image_base64 := image |} now_iso now_stamp.

(** Session ["s1"] after a full label and then a partial one. *)
Definition two_scans : state :=
  (submit (submit empty_state "s1" "full" "2024-01-01T10:00:00" "2024-01-01 10:00:01").1
     "s1" "partial" "2024-01-01T10:00:02" "2024-01-01 10:00:03").1.

(** The two records of ["s1"] in [two_scans], and the session itself. *)
Definition full_record : gmap string pyobj :=
  <["timestamp" := PyStr "2024-01-01 10:00:01"]> full_label.

Definition partial_record : gmap string pyobj :=
  <["timestamp" := PyStr "2024-01-01 10:00:03"]> partial_label.

Definition s1_session : session :=
  {| items := [full_record; partial_record]; started_at := "2024-01-01T10:00:00" |}.

(** [two_scans] with a second session, ["s2"], holding one record. *)
Definition two_sessions : state :=
  (submit two_scans "s2" "full" "2024-01-01T11:00:00" "2024-01-01 11:00:01").1.

Definition to_s1 (image : string) : ImageRequest :=
  {| session_id := "s1"; image_base64 := image |}.

(** Three more submissions to ["s1"]; the second one fails. *)
Definition more_scans : list submission :=
  [ {| request := to_s1 "partial"; at_iso := "2024-01-01T10:01:00";
       at_stamp := "2024-01-01 10:01:01" |};
    {| request := to_s1 "garbled"; at_iso := "2024-01-01T10:02:00";
       at_stamp := "2024-01-01 10:02:01" |};
    {| request := to_s1 "full"; at_iso := "2024-01-01T10:03:00";
       at_stamp := "2024-01-01 10:03:01" |} ].

(** Base64 of RFC 4648, for the bytes of an uploaded file. *)
Definition b64_alphabet : list ascii :=
  list_ascii_of_string
    "ABCDEFGHIJKLMNOPQRSTUVWXYZabcdefghijklmnopqrstuvwxyz0123456789+/".

Definition b64_digit (n : N) : ascii :=
  nth (N.to_nat (N.land n 63)) b64_alphabet "="%char.

Definition b64_quad (n : N) (digits : nat) : string :=
  string_of_list_ascii
    (take digits [b64_digit (N.shiftr n 18); b64_digit (N.shiftr n 12);
                  b64_digit (N.shiftr n 6); b64_digit n]
     ++ replicate (4 - digits) "="%char).

Fixpoint b64encode (bs : list Byte.byte) : string :=
  match bs with
  | [] => ""
  | [a] => b64_quad (N.shiftl (Byte.to_N a) 16) 2
  | [a; b] => b64_quad (N.lor (N.shiftl (Byte.to_N a) 16) (N.shiftl (Byte.to_N b) 8)) 3
  | a :: b :: c :: rest =>
    b64_quad (N.lor (N.lor (N.shiftl (Byte.to_N a) 16) (N.shiftl (Byte.to_N b) 8))
                    (Byte.to_N c)) 4
    +:+ b64encode rest
  end.

(** The bytes of [b"label"]. *)
Definition label_bytes : list Byte.byte :=
  [Byte.x6c; Byte.x61; Byte.x62; Byte.x65; Byte.x6c].

End Sample.

(** ** Sample inputs for the tool and for the widths *)

Module Desk.

(** The bytes of [b"err"] and of [b"[]"]. *)
Definition err_bytes : list Byte.byte := [Byte.x65; Byte.x72; Byte.x72].
Definition array_bytes : list Byte.byte := [Byte.x5b; Byte.x5d].

Definition crucial : gmap string pyobj :=
  <["brand" := PyStr "Crucial"]> (<["speed" := PyStr "2666"]> ∅).

(** An endpoint that answers by the base64 text of the image. *)
Definition reply_of (image : string) : vision_reply :=
  if decide (image = "bGFiZWw=") then Json (PyDict crucial)
  else if decide (image = "ZXJy") then
    Json (PyDict (<["error" := PyStr "unreadable label"]> crucial))
  else if decide (image = "W10=") then Json (PyList [])
  else ApiError "Connection error.".

Definition desk : world := {| groq := fun _ _ image => reply_of image |}.

(** [len(str(v))] for the values of the samples: a string, an int, [None],
    [True] and [False], a float by its literal. Lists and dicts, which the
    samples do not have, count as 0 here. *)
Definition text_len (v : pyobj) : nat :=
  match v with
  | PyStr s => String.length s
  | PyInt n => String.length (pretty n)
  | PyFloat lit => String.length lit
  | PyNone => 4
  | PyBool true => 4
  | PyBool false => 5
  | PyList _ | PyDict _ => 0
  end.

End Desk.

(** ** Sample inputs for the export *)

Module Odd.
Import Backend Sample.

(** [repr(v)] for the values of the samples: numbers, [None], [True] and
    [False], strings that need no escape, and lists of these. *)
Fixpoint flat_repr (v : pyobj) : string :=
  match v with
  | PyNone => "None"
  | PyBool true => "True"
  | PyBool false => "False"
  | PyInt n => pretty n
  | PyFloat lit => lit
  | PyStr s => "'" +:+ s +:+ "'"
  | PyList l => "[" +:+ String.concat ", " (map flat_repr l) +:+ "]"
  | PyDict _ => "{...}"
  end.

Definition euro_header : string := "attachment; filename=hardware_inventory_€.xlsx".

(** The texts of Python for the samples. *)
Definition sample_texts : python_text :=
  {| repr_of := flat_repr;
     latin1_error := fun s =>
       if decide (s = euro_header)
       then "'latin-1' codec can't encode character '\u20ac' in position 40: ordinal not in range(256)"
       else "ordinal not in range(256)" |}.

Definition two_brands : gmap string pyobj :=
  <["brand" := PyList [PyStr "Kingston"; PyStr "HyperX"]]> (<["capacity" := PyStr "8GB"]> ∅).

(** A brand with the control character BEL in it. *)
Definition bell_brand : gmap string pyobj :=
  <["brand" := PyStr ("King" +:+ String "007"%char "ston")]> ∅.

(** An endpoint that answers by the image alone. *)
Definition odd_reply (image : string) : vision_reply :=
  if decide (image = "two-brands") then Json (PyDict two_brands)
  else if decide (image = "bell") then Json (PyDict bell_brand)
  else if decide (image = "offline") then ApiError "Connection error."
  else Json (PyDict full_label).

Definition bench : world := {| groq := fun _ _ image => odd_reply image |}.

Definition scan_to (st : state) (sid image : string) : state * ProcessResponse :=
  process_image strict_str strict_error bench key st
    {| session_id := sid; image_base64 := image |}
    "2024-02-01T09:00:00" "2024-02-01 09:00:01".

(** One session each: a record whose brand is a list, a record whose brand
    has a control character, and a good record under an identifier with a
    character outside Latin-1. *)
Definition listed : state := (scan_to empty_state "s1" "two-brands").1.
Definition belled : state := (scan_to empty_state "s1" "bell").1.
Definition euro : state := (scan_to empty_state "€" "full").1.


End Odd.

(** ** Properties *)

Import Backend.

(** *** The session store under the handlers *)

Section Handlers.

Context (validate_str : pyobj -> option string)
        (validation_error : gmap string pyobj -> string)
        (w : world) (environ_key : option string)
        (texts : python_text).

#[local] Abbreviation scan := (scan validate_str validation_error w environ_key).
#[local] Abbreviation process_image :=
  (process_image validate_str validation_error w environ_key).
#[local] Abbreviation export_session := (export_session texts).

Lemma ensure_session_present ss sid now s :
  ss !! sid = Some s -> ensure_session ss sid now = ss.
Proof. intros H. unfold ensure_session. by rewrite H. Qed.

Lemma ensure_session_absent ss sid now :
  ss !! sid = None -> ensure_session ss sid now = <[sid := new_session now]> ss.
Proof. intros H. unfold ensure_session. by rewrite H. Qed.

Lemma ensure_session_lookup ss sid now :
  ensure_session ss sid now !! sid =
  Some (default (new_session now) (ss !! sid)).
Proof.
  unfold ensure_session. destruct (ss !! sid) as [s|] eqn:E; simpl.
  - exact E.
  - apply lookup_insert_eq.
Qed.

Lemma ensure_session_other ss sid now sid' :
  sid' ≠ sid -> ensure_session ss sid now !! sid' = ss !! sid'.
Proof.
  intros Hne. unfold ensure_session. destruct (ss !! sid); [done|].
  by rewrite lookup_insert_ne.
Qed.

Lemma ensure_session_twice ss sid now now' :
  ensure_session (ensure_session ss sid now) sid now' = ensure_session ss sid now.
Proof.
  eapply ensure_session_present, ensure_session_lookup.
Qed.

(** [start_session], unlike the creation step of [process_image], stores a
    new session whatever is there under the identifier. *)
Lemma start_session_replaces st now_id now_iso :
  sessions (start_session st now_id now_iso).1 !! now_id = Some (new_session now_iso).
Proof. apply lookup_insert_eq. Qed.

Lemma scan_cases st request now_stamp :
  scan_outcome st request (scan st request now_stamp).
Proof.
  unfold Backend.scan.
  destruct (extract_hardware_info _ _ _ _) as [[v|e] sent]; [|constructor].
  destruct (setitem _ _ _) as [record|e]; [|constructor].
  unfold append_item. simpl.
  destruct (sessions st !! session_id request) as [s|] eqn:Hs; [|constructor].
  apply scan_stored; [done|].
  intros response. destruct (HardwareData_new _ _ _) as [d|e]; simpl; [|done].
  unfold session_items. rewrite lookup_insert_eq. simpl.
  intros [= <-]. simpl. rewrite length_app. simpl.
  split_and!; [done|by eexists|lia].
Qed.

Lemma process_image_eq st request now_iso now_stamp :
  process_image st request now_iso now_stamp =
  let r := scan {| sessions := ensure_session (sessions st) (session_id request) now_iso;
                   calls := calls st |} request now_stamp in
  (r.1, match r.2 with Ok response => response | Raise e => on_exception e end).
Proof. unfold Backend.process_image. by destruct (Backend.scan _ _ _ _ _ _ _). Qed.

Lemma on_exception_rejected e : exists msg, on_exception e = rejected msg.
Proof. destruct e; by eexists. Qed.

Lemma process_image_cases st request now_iso now_stamp :
  let sid := session_id request in
  let ss0 := ensure_session (sessions st) sid now_iso in
  (exists msg sent,
     process_image st request now_iso now_stamp =
     ({| sessions := ss0; calls := sent |}, rejected msg)) \/
  (exists s record sent response,
     ss0 !! sid = Some s /\
     process_image st request now_iso now_stamp =
     ({| sessions := <[sid := {| items := items s ++ [record];
                                 started_at := started_at s |}]> ss0;
         calls := sent |}, response) /\
     (success response = true ->
      is_Some (data response) /\ scan_count response = S (length (items s)))).
Proof.
  intros sid ss0. rewrite process_image_eq. cbv zeta. fold sid ss0.
  pose proof (scan_cases {| sessions := ss0; calls := calls st |} request now_stamp) as H.
  inversion H as [e sent Heq | s record sent r Hs Hr Heq]; simpl in *.
  - left. destruct (on_exception_rejected e) as [msg ->]. by exists msg, sent.
  - right. exists s, record, sent. eexists. split; [exact Hs|]. split; [reflexivity|].
    destruct r as [response|e]; simpl.
    + intros _. by destruct (Hr response eq_refl) as (_ & ? & ?).
    + destruct (on_exception_rejected e) as [msg ->]. discriminate.
Qed.

(** *** Claims about one handler *)

(** C3. Submitting an image under an identifier that is already stored
    neither duplicates nor resets the session: the creation step returns the
    store as it was, and after the whole submission the store has the same
    identifiers, the session has its creation time and its former records
    are still the first records of its list. *)
Theorem creation_is_idempotent st request now_iso now_stamp s :
  sessions st !! session_id request = Some s ->
  ensure_session (sessions st) (session_id request) now_iso = sessions st /\
  ensure_session (sessions st) (session_id request) now_iso !! session_id request = Some s /\
  let st' := (process_image st request now_iso now_stamp).1 in
  dom (sessions st') = dom (sessions st) /\
  exists s', sessions st' !! session_id request = Some s' /\
             started_at s' = started_at s /\
             exists new, items s' = items s ++ new.
Proof.
  intros Hs. pose proof (ensure_session_present _ _ now_iso _ Hs) as Hens.
  split; [exact Hens|]. split; [by rewrite Hens|].
  destruct (process_image_cases st request now_iso now_stamp)
    as [(msg & sent & ->) | (s0 & record & sent & response & Hs0 & -> & _)];
    simpl; rewrite ?Hens in *.
  - split; [done|]. exists s. split_and!; [done..|]. exists []. by rewrite app_nil_r.
  - assert (s0 = s) as -> by congruence. split.
    + rewrite dom_insert_L. apply elem_of_dom_2 in Hs.
      apply subseteq_union_1_L. by apply singleton_subseteq_l.
    + eexists. rewrite lookup_insert_eq. split_and!; [done..|]. by eexists.
Qed.

(** C5. For an identifier that is not stored, lookup and export answer 404
    and leave the store as it was. *)
Theorem missing_session_is_not_found st sid :
  sessions st !! sid = None ->
  get_session st sid = (st, Raise (HTTPException 404 "Session not found")) /\
  export_session st sid = (st, Raise (HTTPException 404 "Session not found")).
Proof.
  intros Hs. unfold get_session, Backend.export_session. by rewrite Hs.
Qed.

(** C6. Ending a session that is not stored leaves the store as it was and
    still answers with the success message and the identifier. *)
Theorem end_missing_session_is_noop st sid :
  sessions st !! sid = None ->
  end_session st sid = (st, {| about_session := sid; message := "Session ended" |}).
Proof.
  intros Hs. unfold end_session. by rewrite Hs.
Qed.

(** C8. When the extraction raises, the answer has [success = false] and an
    error text, and no record is appended: the store is the one the creation
    step left, which is the store before the request when the session was
    there and the store with the new, empty session otherwise. *)
Theorem failed_extraction_appends_nothing st request now_iso now_stamp e :
  (extract_hardware_info w environ_key (calls st) (image_base64 request)).1 = Raise e ->
  let out := process_image st request now_iso now_stamp in
  success out.2 = false /\ data out.2 = None /\ is_Some (error out.2) /\
  sessions out.1 = ensure_session (sessions st) (session_id request) now_iso /\
  (forall s, sessions st !! session_id request = Some s ->
             sessions out.1 = sessions st /\
             sessions out.1 !! session_id request = Some s) /\
  (sessions st !! session_id request = None ->
   exists s', sessions out.1 !! session_id request = Some s' /\ items s' = []).
Proof.
  intros Hx out.
  assert (sessions out.1 = ensure_session (sessions st) (session_id request) now_iso /\
          exists msg, out.2 = rejected msg) as [Hss [msg Hmsg]].
  { subst out. rewrite process_image_eq. cbv zeta. unfold Backend.scan. simpl.
    destruct (extract_hardware_info _ _ _ _) as [r sent]. simpl in Hx. subst r.
    simpl. split; [done|]. apply on_exception_rejected. }
  rewrite Hmsg, Hss. simpl. split_and!; [done|done|by eexists|done|..].
  - intros s Hs. by rewrite (ensure_session_present _ _ _ _ Hs).
  - intros Hs. rewrite ensure_session_lookup, Hs. simpl. by eexists.
Qed.

(** C9. A submission to, an export of, a lookup of or the end of session
    [sid] leaves every session stored under another identifier as it was. *)
Theorem other_sessions_untouched st request now_iso now_stamp sid sid' :
  sid' ≠ sid -> session_id request = sid ->
  sessions (process_image st request now_iso now_stamp).1 !! sid' = sessions st !! sid' /\
  sessions (export_session st sid).1 !! sid' = sessions st !! sid' /\
  sessions (get_session st sid).1 !! sid' = sessions st !! sid' /\
  sessions (end_session st sid).1 !! sid' = sessions st !! sid'.
Proof.
  intros Hne <-. split_and!.
  - destruct (process_image_cases st request now_iso now_stamp)
      as [(msg & sent & ->) | (s0 & record & sent & response & Hs0 & -> & _)]; simpl.
    + by apply ensure_session_other.
    + rewrite lookup_insert_ne by done. by apply ensure_session_other.
  - unfold Backend.export_session. destruct (sessions st !! _) as [s|]; [|done].
    by destruct (items s).
  - unfold get_session. by destruct (sessions st !! _).
  - unfold end_session. destruct (sessions st !! _); [|done]. simpl.
    by rewrite lookup_delete_ne.
Qed.

(** C10. After a submission answered with [success = true], the session's
    list is one record longer than the creation step left it (than it was,
    for a session that was there), and both the [scan_count] of the answer
    and the [scan_count] of a lookup are the length of that list. *)
Theorem scan_count_is_length st request now_iso now_stamp :
  let sid := session_id request in
  let out := process_image st request now_iso now_stamp in
  success out.2 = true ->
  exists s0 s' record,
    ensure_session (sessions st) sid now_iso !! sid = Some s0 /\
    (forall s, sessions st !! sid = Some s -> s0 = s) /\
    (sessions st !! sid = None -> items s0 = []) /\
    sessions out.1 !! sid = Some s' /\
    items s' = items s0 ++ [record] /\
    length (items s') = S (length (items s0)) /\
    scan_count out.2 = length (items s') /\
    exists view, get_session out.1 sid = (out.1, Ok view) /\
                 view_scan_count view = length (items s').
Proof.
  intros sid out Hok. subst out.
  destruct (process_image_cases st request now_iso now_stamp)
    as [(msg & sent & Heq) | (s0 & record & sent & response & Hs0 & Heq & Hresp)];
    fold sid in Heq; rewrite Heq in *; simpl in *; [discriminate|].
  destruct (Hresp Hok) as [_ Hcount].
  fold sid in Hs0 |- *.
  exists s0, {| items := items s0 ++ [record]; started_at := started_at s0 |}, record.
  rewrite ensure_session_lookup in Hs0. injection Hs0 as Hs0.
  split_and!.
  - by rewrite ensure_session_lookup, Hs0.
  - intros s Hs. by rewrite Hs in Hs0.
  - intros Hs. rewrite Hs in Hs0. by subst s0.
  - apply lookup_insert_eq.
  - done.
  - simpl. rewrite length_app. simpl. lia.
  - simpl. rewrite length_app. simpl. lia.
  - unfold get_session. simpl. rewrite lookup_insert_eq. by eexists.
Qed.

End Handlers.

(** *** The cells of the exported sheet *)

Section Spreadsheet.

Context (texts : python_text).

Implicit Types (ws : worksheet) (its : list (gmap string pyobj)).

#[local] Abbreviation bind_value := (bind_value texts).
#[local] Abbreviation ws_cell := (ws_cell texts).
#[local] Abbreviation write_header := (write_header texts).
#[local] Abbreviation write_item := (write_item texts).
#[local] Abbreviation fill_sheet := (fill_sheet texts).
#[local] Abbreviation build_workbook := (build_workbook texts).
#[local] Abbreviation export_session := (export_session texts).

(** **** Strings *)

Lemma take_chars_short (s : string) (n : N) :
  (py_len s <= n)%N -> take_chars n s = s.
Proof.
  revert n. induction s as [|a s IH]; intros n Hlen; simpl in *; [done|].
  destruct (continuation a).
  - by rewrite IH.
  - destruct (N.eqb_spec n 0) as [->|Hn]; [lia|].
    rewrite IH; [done|lia].
Qed.

Lemma take_chars_len (s : string) (n : N) :
  (py_len (take_chars n s) <= n)%N.
Proof.
  revert n. induction s as [|a s IH]; intros n; simpl; [lia|].
  destruct (continuation a) eqn:Ha; simpl.
  - rewrite Ha. apply IH.
  - destruct (N.eqb_spec n 0) as [->|Hn]; simpl; [lia|].
    rewrite Ha. specialize (IH (N.pred n)). lia.
Qed.

Lemma latin1_app (a b : string) : latin1 (a +:+ b) = latin1 a && latin1 b.
Proof.
  unfold latin1. induction a as [|x a IH]; simpl; [done|].
  rewrite IH. by rewrite andb_assoc.
Qed.

(** A value that is plain is shown as it is. *)
Lemma shown_plain (v : pyobj) : plain v -> shown v = v.
Proof.
  intros [_ Hshort]. destruct v; simpl; try done.
  by rewrite take_chars_short.
Qed.

Lemma dict_get_exported (item : gmap string pyobj) k :
  dict_get item k (PyStr "N/A") = exported item k.
Proof. unfold dict_get, exported. by destruct (item !! k). Qed.

(** **** One cell *)

Lemma bind_value_accepted v : accepted v = true -> bind_value v = Ok (shown v).
Proof.
  destruct v; simpl; try done.
  - by destruct (has_illegal_character _).
Qed.

Lemma bind_value_refused v : accepted v = false -> exists e, bind_value v = Raise e.
Proof.
  destruct v; simpl; try done; try by eexists.
  destruct (has_illegal_character _); [by eexists|done].
Qed.

Lemma ws_cell_accepted r c v ws :
  accepted v = true -> ws_cell r c v ws = Ok (put_value r c v ws).
Proof.
  intros Hv. unfold Backend.ws_cell, put_value.
  destruct v; try done; by rewrite (bind_value_accepted _ Hv).
Qed.

Lemma ws_cell_refused r c v ws :
  accepted v = false -> exists e, ws_cell r c v ws = Raise e.
Proof.
  intros Hv. destruct (bind_value_refused _ Hv) as [e He].
  exists e. unfold Backend.ws_cell. destruct v; try done; by rewrite He.
Qed.

Lemma ws_cell_Ok r c v ws ws' :
  ws_cell r c v ws = Ok ws' <-> accepted v = true /\ ws' = put_value r c v ws.
Proof.
  destruct (accepted v) eqn:Hv.
  - rewrite (ws_cell_accepted _ _ _ _ Hv). split; [by intros [= <-]|by intros [_ ->]].
  - destruct (ws_cell_refused r c v ws Hv) as [e ->]. split; [done|by intros [? _]].
Qed.

Lemma bind_result_Ok {A B : Type} (m : result A) (f : A -> result B) (b : B) :
  m ≫= f = Ok b <-> exists a, m = Ok a /\ f a = Ok b.
Proof.
  destruct m as [a|e]; simpl.
  - split; [by exists a|by intros (a' & [= <-] & ?)].
  - split; [done|by intros (a' & [=] & _)].
Qed.

(** **** The loops *)

Lemma for_each_pure {A B : Type} (body : A -> B -> result A) (pure : A -> B -> A)
    (P : B -> Prop) :
  (forall a x a', body a x = Ok a' <-> P x /\ a' = pure a x) ->
  forall l a a', for_each body a l = Ok a' <-> Forall P l /\ a' = foldl pure a l.
Proof.
  intros Hbody. induction l as [|x l IH]; intros a a'; simpl.
  - split; [by intros [= <-]|by intros [_ ->]].
  - destruct (body a x) as [b|e] eqn:Hb.
    + apply Hbody in Hb as [Hx ->]. rewrite IH. split.
      * intros [Hl ->]. split; [by constructor|done].
      * intros [Hl ->]. by inversion_clear Hl.
    + split; [done|]. intros [Hl _]. inversion_clear Hl as [|? ? Hx _].
      assert (body a x = Ok (pure a x)) as Hok by (by apply Hbody).
      by rewrite Hok in Hb.
Qed.

Lemma Forall_enumerate {A : Type} (P : A -> Prop) (l : list A) k :
  Forall (fun it : nat * A => P it.2) (enumerate k l) <-> Forall P l.
Proof.
  revert k. induction l as [|x l IH]; intros k; simpl; [done|].
  rewrite !Forall_cons. by rewrite IH.
Qed.

Lemma write_header_Ok ws h ws' :
  write_header ws h = Ok ws' <-> accepted (PyStr h.2) = true /\ ws' = put_header ws h.
Proof.
  unfold Backend.write_header, put_header. rewrite bind_result_Ok. split.
  - intros (ws1 & [Hh ->]%ws_cell_Ok & [= <-]). done.
  - intros [Hh ->]. eexists. split; [by apply ws_cell_Ok|done].
Qed.

Lemma exportable_keys (item : gmap string pyobj) :
  exportable item <->
  accepted (exported item "brand") = true /\
  accepted (exported item "capacity") = true /\
  accepted (exported item "generation") = true /\
  accepted (exported item "speed") = true /\
  accepted (exported item "timestamp") = true.
Proof.
  unfold exportable. split.
  - intros H. split_and!; apply H; by apply (bool_decide_unpack _).
  - intros (? & ? & ? & ? & ?) k Hk. apply list_elem_of_In in Hk. simpl in Hk.
    by destruct Hk as [<-|[<-|[<-|[<-|[<-|[]]]]]].
Qed.

Lemma write_item_Ok ws it ws' :
  write_item ws it = Ok ws' <-> exportable it.2 /\ ws' = put_item ws it.
Proof.
  destruct it as [idx item]. unfold Backend.write_item, put_item. simpl.
  rewrite !dict_get_exported, exportable_keys.
  repeat (match goal with
          | |- context [Backend.ws_cell texts ?r ?c ?v ?w] =>
            destruct (accepted v) eqn:?;
            [rewrite (ws_cell_accepted r c v w) by done; simpl
            |let e := fresh "e" in
             destruct (ws_cell_refused r c v w) as [e ->]; [done|]; simpl;
             split; [done|intros [(? & ? & ? & ? & ?) _]; congruence]]
          end).
  split; [by intros [= <-]|by intros [_ ->]].
Qed.

Lemma headers_accepted :
  Forall (fun h : nat * string => accepted (PyStr h.2) = true) (enumerate 1 headers).
Proof. repeat constructor. Qed.

Lemma fill_sheet_Ok ws its ws' :
  fill_sheet ws its = Ok ws' <-> Forall exportable its /\ ws' = put_sheet ws its.
Proof.
  unfold Backend.fill_sheet, put_sheet.
  set (ws1 := {| title := "Hardware Inventory"; cells := cells ws |}).
  assert (for_each write_header ws1 (enumerate 1 headers) =
          Ok (foldl put_header ws1 (enumerate 1 headers))) as ->.
  { apply (for_each_pure _ put_header
             (fun h : nat * string => accepted (PyStr h.2) = true)).
    - intros a x a'. apply write_header_Ok.
    - split; [apply headers_accepted|done]. }
  simpl.
  rewrite (for_each_pure write_item put_item (fun it => exportable it.2)).
  - by rewrite Forall_enumerate.
  - intros a x a'. apply write_item_Ok.
Qed.

(** **** The cells a successful export leaves *)

Lemma put_header_lookup ws col h r c :
  cells (put_header ws (col, h)) !! (r, c) =
  if decide (r = 1 /\ c = col)
  then Some {| value := PyStr (take_chars 32767 h); bold := true |}
  else cells ws !! (r, c).
Proof.
  unfold put_header, ws_bold, put_value, put_cell. simpl.
  rewrite lookup_insert_eq. simpl.
  rewrite !lookup_insert.
  repeat case_decide; simplify_eq; try done; intuition congruence.
Qed.

Lemma header_loop_lookup hs k ws r c :
  cells (foldl put_header ws (enumerate k hs)) !! (r, c) =
  if decide (r = 1 /\ k <= c) then
    match hs !! (c - k) with
    | Some h => Some {| value := PyStr (take_chars 32767 h); bold := true |}
    | None => cells ws !! (r, c)
    end
  else cells ws !! (r, c).
Proof.
  revert k ws. induction hs as [|h hs IH]; intros k ws; simpl.
  - by case_decide.
  - rewrite IH, put_header_lookup.
    destruct (decide (r = 1 /\ k <= c)) as [[-> Hk]|Hn].
    + destruct (decide (c = k)) as [->|Hck].
      * replace (k - k) with 0 by lia. simpl.
        rewrite decide_False by lia. by rewrite decide_True.
      * rewrite decide_True by lia.
        replace (c - k) with (S (c - S k)) by lia. simpl.
        rewrite decide_False by (intros [_ ?]; done). done.
    + rewrite decide_False by lia.
      rewrite decide_False by (intros [? ?]; apply Hn; lia). done.
Qed.

Lemma put_item_lookup ws idx item r c :
  (forall c', cells ws !! (idx + 1, c') = None) ->
  cells (put_item ws (idx, item)) !! (r, c) =
  if decide (r = idx + 1 /\ 1 <= c <= 6) then
    Some {| value := nth (c - 1) (row_of idx item) PyNone; bold := false |}
  else cells ws !! (r, c).
Proof.
  intros Hnew. unfold put_item, put_value, put_cell, cell_value. simpl.
  rewrite !lookup_insert.
  destruct (decide (r = idx + 1 /\ 1 <= c <= 6)) as [[-> Hc]|Hn].
  - assert (c = 1 \/ c = 2 \/ c = 3 \/ c = 4 \/ c = 5 \/ c = 6) as Hcases by lia.
    destruct Hcases as [->|[->|[->|[->|[->| ->]]]]];
      repeat (case_decide; simplify_eq; try lia);
      rewrite ?Hnew; simpl; try done; by destruct (exported _ _).
  - repeat (case_decide; simplify_eq; try lia); try done; exfalso; apply Hn; lia.
Qed.

Lemma item_loop_lookup its k ws r c :
  (forall r' c', k + 1 <= r' -> cells ws !! (r', c') = None) ->
  cells (foldl put_item ws (enumerate k its)) !! (r, c) =
  if decide (k + 1 <= r /\ 1 <= c <= 6) then
    match its !! (r - (k + 1)) with
    | Some item =>
      Some {| value := nth (c - 1) (row_of (r - 1) item) PyNone; bold := false |}
    | None => cells ws !! (r, c)
    end
  else cells ws !! (r, c).
Proof.
  revert k ws. induction its as [|item its IH]; intros k ws Hnew; simpl.
  - by case_decide.
  - assert (forall c', cells ws !! (k + 1, c') = None) as Hrow
      by (intros c'; apply Hnew; lia).
    rewrite IH.
    2:{ intros r' c' Hr'. rewrite put_item_lookup by done.
        rewrite decide_False by lia. apply Hnew. lia. }
    rewrite put_item_lookup by done.
    destruct (decide (k + 1 <= r /\ 1 <= c <= 6)) as [[Hr Hc]|Hn].
    + destruct (decide (r = k + 1)) as [->|Hrk].
      * replace (k + 1 - (k + 1)) with 0 by lia. simpl.
        rewrite decide_False by lia. rewrite decide_True by lia.
        by replace (k + 1 - 1) with k by lia.
      * rewrite decide_True by lia.
        replace (r - (k + 1)) with (S (r - (S k + 1))) by lia. simpl.
        rewrite decide_False by lia. done.
    + rewrite decide_False by lia. rewrite decide_False by lia. done.
Qed.

Lemma put_sheet_lookup ws its r c :
  cells ws = ∅ ->
  cells (put_sheet ws its) !! (r, c) = sheet_cell its r c.
Proof.
  intros Hempty. unfold put_sheet, sheet_cell.
  rewrite item_loop_lookup.
  2:{ intros r' c' Hr'. rewrite header_loop_lookup. simpl.
      rewrite decide_False by lia. by rewrite Hempty. }
  rewrite header_loop_lookup. simpl cells. rewrite Hempty, lookup_empty.
  destruct (decide (1 <= c <= 6)) as [Hc|Hc].
  - destruct r as [|[|i]].
    + rewrite decide_False by lia. by rewrite decide_False by lia.
    + rewrite decide_False by lia. rewrite decide_True by lia.
      assert (c = 1 \/ c = 2 \/ c = 3 \/ c = 4 \/ c = 5 \/ c = 6) as Hcases by lia.
      by destruct Hcases as [->|[->|[->|[->|[->| ->]]]]].
    + rewrite decide_True by lia. rewrite decide_False by lia.
      replace (S (S i) - (1 + 1)) with i by lia.
      replace (S (S i) - 1) with (S i) by lia.
      by destruct (its !! i).
  - rewrite decide_False by lia.
    destruct (decide (r = 1 /\ 1 <= c)) as [[-> Hc1]|Hn]; [|done].
    assert (headers !! (c - 1) = None) as ->; [|done].
    apply lookup_ge_None_2. simpl. lia.
Qed.

Lemma sheet_cell_is_Some its r c :
  is_Some (sheet_cell its r c) <-> 1 <= c <= 6 /\ 1 <= r <= S (length its).
Proof.
  unfold sheet_cell. case_decide as Hc.
  - destruct r as [|[|i]].
    + split; [intros [? [=]]|lia].
    + split; [intros _; lia|by eexists].
    + rewrite fmap_is_Some, lookup_lt_is_Some. lia.
  - split; [intros [? [=]]|lia].
Qed.

Lemma put_sheet_dom ws its r c :
  cells ws = ∅ ->
  (r, c) ∈ dom (cells (put_sheet ws its)) <-> 1 <= c <= 6 /\ 1 <= r <= S (length its).
Proof.
  intros Hempty. rewrite elem_of_dom, put_sheet_lookup by done.
  apply sheet_cell_is_Some.
Qed.

Lemma max_list_upper (l : list nat) n :
  (forall x, x ∈ l -> x <= n) -> max_list l <= n.
Proof.
  induction l as [|y l IH]; intros Hall; simpl; [lia|].
  apply Nat.max_lub.
  - apply Hall. by left.
  - apply IH. intros x Hx. apply Hall. by right.
Qed.

Lemma max_list_attained (l : list nat) n :
  n ∈ l -> (forall x, x ∈ l -> x <= n) -> max_list l = n.
Proof.
  intros Hin Hall. apply Nat.le_antisymm.
  - by apply max_list_upper.
  - by apply max_list_elem_of_le.
Qed.

Lemma put_sheet_max_row ws its :
  cells ws = ∅ -> max_row (put_sheet ws its) = S (length its).
Proof.
  intros Hempty. unfold max_row.
  rewrite (max_list_attained _ (S (length its))); [lia|..].
  - apply list_elem_of_fmap. exists (S (length its), 1). split; [done|].
    apply elem_of_elements, put_sheet_dom; [done|lia].
  - intros x [[r c] [-> Hin]]%list_elem_of_fmap.
    apply elem_of_elements, put_sheet_dom in Hin; [|done]. simpl. lia.
Qed.

Lemma put_sheet_max_column ws its :
  cells ws = ∅ -> max_column (put_sheet ws its) = 6.
Proof.
  intros Hempty. unfold max_column.
  rewrite (max_list_attained _ 6); [lia|..].
  - apply list_elem_of_fmap. exists (1, 6). split; [done|].
    apply elem_of_elements, put_sheet_dom; [done|lia].
  - intros x [[r c] [-> Hin]]%list_elem_of_fmap.
    apply elem_of_elements, put_sheet_dom in Hin; [|done]. simpl. lia.
Qed.

(** The rows of the finished sheet: the header, then the records in the
    order of the list, numbered from 1. *)
Lemma put_sheet_values ws its :
  cells ws = ∅ ->
  ws_values (put_sheet ws its) = sheet_rows its.
Proof.
  intros Hempty. unfold ws_values, sheet_rows.
  rewrite put_sheet_max_row, put_sheet_max_column by done.
  unfold cell_value. simpl seq. rewrite fmap_cons. f_equal.
  - simpl. by rewrite !put_sheet_lookup by done.
  - apply list_eq. intros i.
    rewrite list_lookup_fmap, list_lookup_imap.
    destruct (its !! i) as [item|] eqn:Hi.
    + apply lookup_lt_Some in Hi as Hlt.
      rewrite lookup_seq_lt by lia. simpl.
      rewrite !put_sheet_lookup by done. unfold sheet_cell. simpl.
      by rewrite Hi.
    + apply lookup_ge_None in Hi.
      by rewrite lookup_seq_ge by lia.
Qed.

Lemma put_sheet_title ws its : title (put_sheet ws its) = "Hardware Inventory".
Proof.
  unfold put_sheet.
  assert (forall A (f : worksheet -> A -> worksheet) (l : list A) ws0,
            (forall ws1 a, title (f ws1 a) = title ws1) ->
            title (foldl f ws0 l) = title ws0) as Hfold.
  { intros A f l. induction l as [|a l IH]; intros ws0 Hf; simpl; [done|].
    by rewrite IH, Hf. }
  rewrite !Hfold; [done|by intros ? []..].
Qed.

(** **** The handler *)

Lemma build_workbook_Ok its wb :
  build_workbook its = Ok wb <->
  Forall exportable its /\ wb = {| sheets := [put_sheet blank its] |}.
Proof.
  unfold Backend.build_workbook. simpl. rewrite bind_result_Ok. split.
  - intros (ws & [Hits ->]%fill_sheet_Ok & [= <-]). done.
  - intros [Hits ->]. eexists. split; [by apply fill_sheet_Ok|done].
Qed.

Lemma latin1_disposition sid :
  latin1 ("attachment; filename=" +:+ "hardware_inventory_" +:+ sid +:+ ".xlsx") =
  latin1 sid.
Proof.
  rewrite !latin1_app. change (latin1 "attachment; filename=") with true.
  change (latin1 "hardware_inventory_") with true.
  change (latin1 ".xlsx") with true. simpl. apply andb_true_r.
Qed.

(** When the export answers with a spreadsheet, and with which. *)
Lemma export_session_Ok st sid response :
  export_session st sid = (st, Ok response) <->
  exists s,
    sessions st !! sid = Some s /\ items s ≠ [] /\
    Forall exportable (items s) /\ latin1 sid = true /\
    response =
    {| body := {| sheets := [put_sheet blank (items s)] |};
       media_type := "application/vnd.openxmlformats-officedocument.spreadsheetml.sheet";
       content_disposition :=
         "attachment; filename=" +:+ "hardware_inventory_" +:+ sid +:+ ".xlsx" |}.
Proof.
  unfold Backend.export_session.
  destruct (sessions st !! sid) as [s|] eqn:Hs.
  2:{ split; [done|]. by intros (s & [=] & _). }
  destruct (items s) as [|item its] eqn:Hits.
  { split; [done|]. intros (s' & [= <-] & Hne & _). by rewrite Hits in Hne. }
  rewrite <- Hits. split.
  - intros [= Hok]. apply bind_result_Ok in Hok as (wb & [Hall ->]%build_workbook_Ok & Hnew).
    unfold StreamingResponse_new in Hnew. rewrite latin1_disposition in Hnew.
    destruct (latin1 sid) eqn:Hsid; [|done]. injection Hnew as <-.
    exists s. split_and!; try done. by rewrite Hits.
  - intros (s' & [= <-] & Hne & Hall & Hsid & ->). f_equal.
    apply bind_result_Ok. eexists. split; [by apply build_workbook_Ok|].
    unfold StreamingResponse_new. by rewrite latin1_disposition, Hsid.
Qed.

Lemma export_session_state st sid : (export_session st sid).1 = st.
Proof.
  unfold Backend.export_session.
  destruct (sessions st !! sid) as [s|]; [|done]. by destruct (items s).
Qed.

End Spreadsheet.

Section ExportClaims.

Context (validate_str : pyobj -> option string)
        (validation_error : gmap string pyobj -> string)
        (w : world) (environ_key : option string)
        (texts : python_text).

#[local] Abbreviation process_image :=
  (process_image validate_str validation_error w environ_key).
#[local] Abbreviation submit_all :=
  (submit_all validate_str validation_error w environ_key).
#[local] Abbreviation stored_record := (stored_record w environ_key).
#[local] Abbreviation stored_records := (stored_records w environ_key).
#[local] Abbreviation export_session := (export_session texts).

(** C1, as amended. Exporting a stored session with no record is refused
    with a 400 answer. Exporting one with [N >= 1] records answers with a
    spreadsheet exactly when a cell takes every exported value of every
    record (no list, no dict, no string with a control character) and the
    identifier is Latin-1 text; the workbook then has one sheet whose rows
    are the header row followed by one row per record, [N + 1] rows in
    all. *)
Theorem export_rows st sid s :
  sessions st !! sid = Some s ->
  (length (items s) = 0 ->
   export_session st sid = (st, Raise (HTTPException 400 "No items to export"))) /\
  (1 <= length (items s) -> Forall exportable (items s) -> latin1 sid = true ->
   exists response ws,
     export_session st sid = (st, Ok response) /\
     sheets (body response) = [ws] /\
     max_row ws = length (items s) + 1 /\
     length (ws_values ws) = length (items s) + 1 /\
     ws_values ws !! 0 = Some (PyStr <$> headers) /\
     drop 1 (ws_values ws) = imap (fun i item => row_of (S i) item) (items s)) /\
  (forall response, export_session st sid = (st, Ok response) ->
   1 <= length (items s) /\ Forall exportable (items s) /\ latin1 sid = true).
Proof.
  intros Hs. split_and!.
  - intros Hlen. unfold Backend.export_session. rewrite Hs.
    by destruct (items s).
  - intros Hlen Hall Hsid. eexists. eexists. split.
    { apply export_session_Ok. exists s. split_and!; try done.
      intros Hnil. rewrite Hnil in Hlen. simpl in Hlen. lia. }
    cbn [body sheets]. split; [reflexivity|].
    rewrite put_sheet_max_row, put_sheet_values by done.
    unfold sheet_rows. simpl. rewrite length_imap. split_and!; (done || lia).
  - intros response (s' & Hs' & Hne & Hall & Hsid & _)%export_session_Ok.
    assert (s' = s) as -> by congruence. split_and!; try done.
    destruct (items s); [done|simpl; lia].
Qed.

(** *** Runs of submissions *)

(** One submission appends its record, if it has one, at the end of the
    list of its session and nowhere else. *)
Lemma process_image_appends st sub :
  let st' := (process_image st (request sub) (at_iso sub) (at_stamp sub)).1 in
  let sid := session_id (request sub) in
  calls st' = (stored_record (calls st) sub).2 /\
  sessions st' !! sid =
  Some (let s := default (new_session (at_iso sub)) (sessions st !! sid) in
        {| items := items s ++ option_list (stored_record (calls st) sub).1;
           started_at := started_at s |}) /\
  forall sid', sid' ≠ sid -> sessions st' !! sid' = sessions st !! sid'.
Proof.
  intros st' sid. subst st'. rewrite process_image_eq. cbv zeta.
  unfold Backend.scan, Backend.stored_record. simpl. fold sid.
  pose proof (ensure_session_lookup (sessions st) sid (at_iso sub)) as Hens.
  pose proof (ensure_session_other (sessions st) sid (at_iso sub)) as Hoth.
  set (s := default (new_session (at_iso sub)) (sessions st !! sid)) in *.
  assert (Some s = Some {| items := items s ++ []; started_at := started_at s |}) as Hnil.
  { rewrite app_nil_r. by destruct s. }
  destruct (extract_hardware_info _ _ _ _) as [[v|e] sent]; simpl;
    [|by rewrite Hens].
  destruct (setitem _ _ _) as [record|e]; simpl; [|by rewrite Hens].
  unfold append_item. simpl. rewrite Hens. simpl.
  split; [done|]. split; [by rewrite lookup_insert_eq|].
  intros sid' Hne. rewrite lookup_insert_ne by done. by apply Hoth.
Qed.

Lemma submit_all_items sid subs : forall st s,
  sessions st !! sid = Some s ->
  sessions (submit_all st subs) !! sid =
  Some {| items := items s ++ stored_records sid (calls st) subs;
          started_at := started_at s |}.
Proof.
  induction subs as [|sub subs IH]; intros st s Hs; simpl.
  - rewrite app_nil_r. by destruct s.
  - destruct (process_image_appends st sub) as (Hcalls & Hsid & Hother).
    cbv zeta in *.
    set (st' := (process_image st (request sub) (at_iso sub) (at_stamp sub)).1) in *.
    destruct (decide (session_id (request sub) = sid)) as [Heq|Hne].
    + rewrite Heq, Hs in Hsid. simpl in Hsid.
      rewrite (IH st' _ Hsid). simpl. by rewrite Hcalls, <- app_assoc.
    + rewrite <- (Hother sid) in Hs by done.
      rewrite (IH st' _ Hs). by rewrite Hcalls.
Qed.

(** C7. The records of a session are kept in the order their images were
    submitted: after any run of submissions, the list of a stored session
    is its former list followed by the records of the submissions addressed
    to it, in the order of the run. Lookup answers with that list. Whenever
    the export answers with a spreadsheet, its [i]-th record (from 0) is in
    data row [i + 1], numbered [i + 1], each cell showing the value the
    record has for the key of its column, or ["N/A"]; and it does answer
    with one when a cell takes every exported value and the identifier is
    Latin-1 text. *)
Theorem records_in_submission_order st sid s subs :
  sessions st !! sid = Some s ->
  let st' := submit_all st subs in
  let records := items s ++ stored_records sid (calls st) subs in
  (exists s', sessions st' !! sid = Some s' /\ items s' = records) /\
  (exists view, get_session st' sid = (st', Ok view) /\ view_items view = records) /\
  (forall response, export_session st' sid = (st', Ok response) ->
   exists ws,
     sheets (body response) = [ws] /\
     length (ws_values ws) = S (length records) /\
     forall i item, records !! i = Some item ->
       ws_values ws !! (S i) =
       Some [PyInt (Z.of_nat (S i));
             shown (default (PyStr "N/A") (item !! "brand"));
             shown (default (PyStr "N/A") (item !! "capacity"));
             shown (default (PyStr "N/A") (item !! "generation"));
             shown (default (PyStr "N/A") (item !! "speed"));
             shown (default (PyStr "N/A") (item !! "timestamp"))]) /\
  (records ≠ [] -> Forall exportable records -> latin1 sid = true ->
   exists response, export_session st' sid = (st', Ok response)) /\
  (forall v, plain v -> shown v = v).
Proof.
  intros Hs st' records.
  pose proof (submit_all_items sid subs st s Hs) as Hrun. fold st' records in Hrun.
  split_and!.
  - by eexists.
  - unfold get_session. rewrite Hrun. by eexists.
  - intros response (s' & Hs' & Hne & Hall & Hsid & ->)%export_session_Ok.
    rewrite Hrun in Hs'. injection Hs' as <-. cbn [items] in *.
    eexists. split; [reflexivity|].
    rewrite put_sheet_values by done. unfold sheet_rows. simpl.
    rewrite length_imap. split; [done|].
    intros i item Hi. by rewrite list_lookup_imap, Hi.
  - intros Hne Hall Hsid. eexists. apply export_session_Ok.
    eexists. split; [exact Hrun|]. by split_and!.
  - apply shown_plain.
Qed.

End ExportClaims.

(** *** Fields the endpoint leaves out *)

Section Defaults.

Context (validate_str : pyobj -> option string)
        (validation_error : gmap string pyobj -> string)
        (w : world) (environ_key : option string).

(** The answer of [process-image] carries the default for a field that the
    record lacks. *)
Lemma response_defaults kw d :
  HardwareData_new validate_str validation_error kw = Ok d ->
  (kw !! "capacity" = None -> capacity d = "N/A") /\
  (kw !! "generation" = None -> generation d = "N/A") /\
  (kw !! "brand" = None -> brand d = "N/A") /\
  (kw !! "speed" = None -> speed d = "N/A").
Proof.
  unfold HardwareData_new. intros H.
  destruct (str_field validate_str kw "capacity") as [c|] eqn:Ec; [|done].
  destruct (str_field validate_str kw "generation") as [g|] eqn:Eg; [|done].
  destruct (str_field validate_str kw "brand") as [b|] eqn:Eb; [|done].
  destruct (str_field validate_str kw "speed") as [sp|] eqn:Es; [|done].
  destruct (opt_str_field validate_str kw "timestamp") as [t|]; [|done].
  injection H as <-. simpl. unfold str_field, NA in *.
  split_and!; intros Hk; rewrite Hk in *; congruence.
Qed.

(** The export writes the default in the column of a field that the record
    lacks. *)
Lemma export_defaults idx item :
  (item !! "brand" = None -> row_of idx item !! 1 = Some (PyStr "N/A")) /\
  (item !! "capacity" = None -> row_of idx item !! 2 = Some (PyStr "N/A")) /\
  (item !! "generation" = None -> row_of idx item !! 3 = Some (PyStr "N/A")) /\
  (item !! "speed" = None -> row_of idx item !! 4 = Some (PyStr "N/A")).
Proof.
  unfold row_of, exported. simpl. split_and!; intros ->; reflexivity.
Qed.

(** The record kept in the session is the dict of the reply with the
    timestamp set: a field the reply lacks is not in it. *)
Lemma stored_record_is_reply sent sub record sent' :
  stored_record w environ_key sent sub = (Some record, sent') ->
  exists api_key d,
    environ_key = Some api_key /\
    groq w sent api_key (image_base64 (request sub)) = Json (PyDict d) /\
    record = <["timestamp" := PyStr (at_stamp sub)]> d /\
    forall k, k ≠ "timestamp" -> record !! k = d !! k.
Proof.
  unfold stored_record, extract_hardware_info.
  destruct environ_key as [[|a k]|]; simpl; [by intros [= ? ?]| |by intros [= ? ?]].
  destruct (groq w sent _ _) as [e|e|v] eqn:Hreply; simpl; [by intros [= ? ?]..|].
  destruct v; simpl; intros [= <- <-].
  eexists. eexists. split_and!; [done..|].
  intros field Hfield. by rewrite lookup_insert_ne.
Qed.

End Defaults.

(** A reply that is a dict is stored before [HardwareData] validates it:
    with [null] for the brand the answer is [success = false], and yet the
    session has one record more. *)
Example refused_record_is_stored :
  let out := Sample.submit Sample.two_scans "s1" "null-brand"
               "2024-01-01T10:05:00" "2024-01-01 10:05:01" in
  success out.2 = false /\
  (length <$> (items <$> sessions Sample.two_scans !! "s1")) = Some 2 /\
  (length <$> (items <$> sessions out.1 !! "s1")) = Some 3.
Proof. cbv zeta. split_and!; vm_compute; reflexivity. Qed.

Section OmittedFields.

Context (texts : python_text).

#[local] Abbreviation export_session := (export_session texts).

(** C2. The reply [{"capacity": "16GB"}] has no brand, generation or speed.
    The answer of [process-image] and the exported row show ["N/A"] for the
    three of them, but the record that session lookup returns has no such
    keys: there the fields are absent, not ["N/A"]. *)
Theorem omitted_field_absent_in_lookup :
  let out := Sample.submit Sample.empty_state "s1" "partial"
               "2024-01-01T10:00:00" "2024-01-01 10:00:01" in
  success out.2 = true /\
  (brand <$> data out.2) = Some "N/A" /\
  (generation <$> data out.2) = Some "N/A" /\
  (speed <$> data out.2) = Some "N/A" /\
  (exists response ws,
     export_session out.1 "s1" = (out.1, Ok response) /\
     sheets (body response) = [ws] /\
     ws_values ws !! 1 =
     Some [PyInt 1; PyStr "N/A"; PyStr "16GB"; PyStr "N/A"; PyStr "N/A";
           PyStr "2024-01-01 10:00:01"]) /\
  (exists view record,
     get_session out.1 "s1" = (out.1, Ok view) /\
     view_items view = [record] /\
     record !! "capacity" = Some (PyStr "16GB") /\
     record !! "brand" = None /\
     record !! "generation" = None /\
     record !! "speed" = None).
Proof.
  cbv zeta. split_and!; try (vm_compute; reflexivity).
  - eexists. eexists. split.
    { apply export_session_Ok. eexists.
      split; [vm_compute; reflexivity|]. split; [discriminate|].
      split; [|split; reflexivity].
      repeat constructor. apply exportable_keys. split_and!; vm_compute; reflexivity. }
    split; [reflexivity|]. vm_compute. reflexivity.
  - eexists. eexists. split_and!; [reflexivity|reflexivity|..]; vm_compute; reflexivity.
Qed.

End OmittedFields.

(** *** The vision call *)




(** C1, the claim as it was stated: a session with one record, none of
    which the export writes. A reply whose brand is a list, or a string with
    a control character, is stored by [process_image]; the export of its
    session raises at the cell of that value. A session under an identifier
    with a character outside Latin-1 has a good record, and its export
    raises when the answer is built. *)
Lemma export_refuses_stored_record :
  (exists view, get_session Odd.listed "s1" = (Odd.listed, Ok view) /\
                view_scan_count view = 1) /\
  export_session Odd.sample_texts Odd.listed "s1" =
    (Odd.listed, Raise (Exception "Cannot convert ['Kingston', 'HyperX'] to Excel")) /\
  (Odd.scan_to Sample.empty_state "s1" "bell").2.(success) = true /\
  export_session Odd.sample_texts Odd.belled "s1" =
    (Odd.belled,
     Raise (Exception ("King" +:+ String "007"%char "ston cannot be used in worksheets."))) /\
  (Odd.scan_to Sample.empty_state "€" "full").2.(success) = true /\
  export_session Odd.sample_texts Odd.euro "€" =
    (Odd.euro, Raise (Exception (latin1_error Odd.sample_texts Odd.euro_header))).
Proof.
  split_and!; try (vm_compute; reflexivity).
  eexists. split; [reflexivity|]. vm_compute. reflexivity.
Qed.

(** *** Worked instances on the sample inputs *)

Section Instances.

Import Sample Odd.

Lemma s1_session_exportable : Forall exportable (items s1_session).
Proof.
  repeat constructor; apply exportable_keys; split_and!; vm_compute; reflexivity.
Qed.

Lemma export_rows_witness :
  sessions two_scans !! "s1" = Some s1_session /\
  1 <= length (items s1_session) /\
  Forall exportable (items s1_session) /\
  latin1 "s1" = true /\
  exists response ws,
    export_session sample_texts two_scans "s1" = (two_scans, Ok response) /\
    sheets (body response) = [ws] /\
    max_row ws = 3 /\
    length (ws_values ws) = 3.
Proof.
  split; [vm_compute; reflexivity|]. split; [simpl; lia|].
  split; [exact s1_session_exportable|]. split; [reflexivity|].
  destruct (export_rows sample_texts two_scans "s1" s1_session) as (_ & Hrows & _);
    [vm_compute; reflexivity|].
  destruct Hrows as (response & ws & Hexp & Hsheets & Hmax & Hlen & _);
    [simpl; lia|exact s1_session_exportable|reflexivity|].
  exists response, ws. split_and!; assumption.
Defined.

Lemma creation_is_idempotent_witness :
  sessions two_scans !! "s1" = Some s1_session /\
  ensure_session (sessions two_scans) "s1" "2024-01-01T10:05:00" = sessions two_scans.
Proof.
  split; [vm_compute; reflexivity|].
  refine (proj1 (creation_is_idempotent strict_str strict_error lab key two_scans
                   (to_s1 "full") "2024-01-01T10:05:00" "2024-01-01 10:05:01"
                   s1_session _)).
  vm_compute. reflexivity.
Defined.


Lemma missing_session_is_not_found_witness :
  sessions two_scans !! "s2" = None /\
  get_session two_scans "s2" = (two_scans, Raise (HTTPException 404 "Session not found")) /\
  export_session sample_texts two_scans "s2" =
    (two_scans, Raise (HTTPException 404 "Session not found")).
Proof.
  split; [vm_compute; reflexivity|].
  apply (missing_session_is_not_found sample_texts two_scans "s2").
  vm_compute. reflexivity.
Defined.

Lemma end_missing_session_is_noop_witness :
  sessions two_scans !! "s2" = None /\
  end_session two_scans "s2" =
  (two_scans, {| about_session := "s2"; message := "Session ended" |}).
Proof.
  split; [vm_compute; reflexivity|].
  apply (end_missing_session_is_noop two_scans "s2").
  vm_compute. reflexivity.
Defined.

Lemma records_in_submission_order_witness :
  sessions two_scans !! "s1" = Some s1_session /\
  (exists s',
     sessions (submit_all strict_str strict_error lab key two_scans more_scans) !! "s1" =
       Some s' /\
     items s' =
     items s1_session ++ stored_records lab key "s1" (calls two_scans) more_scans) /\
  exists response ws,
    export_session sample_texts
      (submit_all strict_str strict_error lab key two_scans more_scans) "s1" =
      (submit_all strict_str strict_error lab key two_scans more_scans, Ok response) /\
    sheets (body response) = [ws] /\
    length (ws_values ws) = 5.
Proof.
  split; [vm_compute; reflexivity|].
  destruct (records_in_submission_order strict_str strict_error lab key sample_texts
              two_scans "s1" s1_session more_scans)
    as (Hitems & _ & Hrows & Hexport & _); [vm_compute; reflexivity|].
  split; [exact Hitems|].
  destruct Hexport as [response Hresponse].
  - discriminate.
  - repeat constructor; apply exportable_keys; split_and!; vm_compute; reflexivity.
  - reflexivity.
  - destruct (Hrows response Hresponse) as (ws & Hsheets & Hlen & _).
    exists response, ws. split_and!; assumption.
Defined.

Lemma failed_extraction_appends_nothing_witness :
  (extract_hardware_info lab key (calls two_scans) "garbled").1 =
    Raise (HTTPException 500 "Expecting value: line 1 column 1 (char 0)") /\
  let out := submit two_scans "s1" "garbled"
               "2024-01-01T10:05:00" "2024-01-01 10:05:01" in
  success out.2 = false /\
  sessions out.1 = ensure_session (sessions two_scans) "s1" "2024-01-01T10:05:00".
Proof.
  split; [vm_compute; reflexivity|].
  destruct (failed_extraction_appends_nothing strict_str strict_error lab key two_scans
              (to_s1 "garbled") "2024-01-01T10:05:00" "2024-01-01 10:05:01"
              (HTTPException 500 "Expecting value: line 1 column 1 (char 0)"))
    as (Hfalse & _ & _ & Hstore & _); [vm_compute; reflexivity|].
  split; assumption.
Defined.

Lemma other_sessions_untouched_witness :
  "s2" ≠ "s1" /\
  session_id (to_s1 "partial") = "s1" /\
  sessions (submit two_sessions "s1" "partial"
              "2024-01-01T11:05:00" "2024-01-01 11:05:01").1 !! "s2" =
  sessions two_sessions !! "s2".
Proof.
  split; [discriminate|]. split; [reflexivity|].
  refine (proj1 (other_sessions_untouched strict_str strict_error lab key sample_texts
                   two_sessions (to_s1 "partial")
                   "2024-01-01T11:05:00" "2024-01-01 11:05:01"
                   "s1" "s2" _ _)).
  - discriminate.
  - reflexivity.
Defined.

Lemma scan_count_is_length_witness :
  let out := submit two_scans "s1" "full"
               "2024-01-01T10:05:00" "2024-01-01 10:05:01" in
  success out.2 = true /\
  exists s', sessions out.1 !! "s1" = Some s' /\ scan_count out.2 = length (items s').
Proof.
  split; [vm_compute; reflexivity|].
  destruct (scan_count_is_length strict_str strict_error lab key two_scans
              (to_s1 "full") "2024-01-01T10:05:00" "2024-01-01 10:05:01")
    as (s0 & s' & record & _ & _ & _ & Hs' & _ & _ & Hcount & _);
    [vm_compute; reflexivity|].
  exists s'. split; assumption.
Defined.

End Instances.

(** ** Further properties of the service *)

Section Submissions.

Context (validate_str : pyobj -> option string)
        (validation_error : gmap string pyobj -> string)
        (w : world) (environ_key : option string).

#[local] Abbreviation process_image :=
  (process_image validate_str validation_error w environ_key).
#[local] Abbreviation submit_all :=
  (submit_all validate_str validation_error w environ_key).
#[local] Abbreviation HardwareData_new :=
  (HardwareData_new validate_str validation_error).

(** A submission whose reply is a dict, step by step. *)
Lemma process_image_dict st request now_iso now_stamp api_key d :
  environ_key = Some api_key -> api_key ≠ "" ->
  groq w (calls st) api_key (image_base64 request) = Json (PyDict d) ->
  let sid := session_id request in
  let s0 := default (new_session now_iso) (sessions st !! sid) in
  let record := <["timestamp" := PyStr now_stamp]> d in
  process_image st request now_iso now_stamp =
  ({| sessions := <[sid := {| items := items s0 ++ [record];
                              started_at := started_at s0 |}]>
                  (ensure_session (sessions st) sid now_iso);
      calls := S (calls st) |},
   match HardwareData_new record with
   | Ok hardware => {| success := true; data := Some hardware; error := None;
                       scan_count := S (length (items s0)) |}
   | Raise e => on_exception e
   end).
Proof.
  intros Hkey Hne Hreply sid s0 record.
  rewrite process_image_eq. cbv zeta. unfold scan, extract_hardware_info. simpl.
  rewrite Hkey. destruct api_key as [|a k]; [done|]. rewrite Hreply. simpl.
  unfold append_item. simpl. fold sid. rewrite ensure_session_lookup. fold s0. simpl.
  fold record. destruct (HardwareData_new record) as [hardware|e]; simpl; [|done].
  unfold session_items. rewrite lookup_insert_eq. simpl.
  rewrite length_app. simpl. by replace (length (items s0) + 1) with (S (length (items s0))) by lia.
Qed.

(** X1. Without an API key in the environment (unset or empty), a submission
    is answered [success = false] with the text ["GROQ_API_KEY not
    configured"]; no request goes to the endpoint and no record is kept. *)
Theorem no_key_no_request st request now_iso now_stamp :
  environ_key = None \/ environ_key = Some "" ->
  process_image st request now_iso now_stamp =
  ({| sessions := ensure_session (sessions st) (session_id request) now_iso;
      calls := calls st |},
   rejected "GROQ_API_KEY not configured").
Proof.
  intros Hkey. rewrite process_image_eq. cbv zeta.
  unfold scan, extract_hardware_info. simpl.
  by destruct Hkey as [-> | ->].
Qed.

(** X3. A reply that is JSON but no object (an array, a string, a number,
    [true], [null]) is answered [success = false] with an error text, and no
    record is kept. *)
Theorem non_dict_reply_is_rejected st request now_iso now_stamp api_key v :
  environ_key = Some api_key -> api_key ≠ "" ->
  groq w (calls st) api_key (image_base64 request) = Json v ->
  (forall d, v ≠ PyDict d) ->
  let out := process_image st request now_iso now_stamp in
  success out.2 = false /\ data out.2 = None /\ is_Some (error out.2) /\
  scan_count out.2 = 0 /\
  sessions out.1 = ensure_session (sessions st) (session_id request) now_iso.
Proof.
  intros Hkey Hne Hreply Hv. cbv zeta. rewrite process_image_eq. cbv zeta.
  unfold scan, extract_hardware_info. simpl.
  rewrite Hkey. destruct api_key as [|a k]; [done|]. rewrite Hreply. simpl.
  destruct v; simpl; try (split_and!; by eauto).
  by destruct (Hv d).
Qed.

(** X4. A reply that is an object is kept as it is, with every key it has,
    except that ["timestamp"] is set to the clock of the server: the new last
    record of the session is the reply with that one key overwritten. This
    holds whether or not the answer reports success. *)
Theorem stored_record_has_server_timestamp st request now_iso now_stamp api_key d :
  environ_key = Some api_key -> api_key ≠ "" ->
  groq w (calls st) api_key (image_base64 request) = Json (PyDict d) ->
  let st' := (process_image st request now_iso now_stamp).1 in
  exists view record,
    get_session st' (session_id request) = (st', Ok view) /\
    last (view_items view) = Some record /\
    record = <["timestamp" := PyStr now_stamp]> d /\
    record !! "timestamp" = Some (PyStr now_stamp) /\
    forall k, k ≠ "timestamp" -> record !! k = d !! k.
Proof.
  intros Hkey Hne Hreply. cbv zeta.
  rewrite (process_image_dict _ _ _ _ _ _ Hkey Hne Hreply). cbv zeta. simpl.
  unfold get_session. simpl. rewrite lookup_insert_eq.
  eexists. eexists. split; [reflexivity|]. simpl.
  split_and!; [by rewrite last_snoc|done|by rewrite lookup_insert_eq|].
  intros k Hk. by rewrite lookup_insert_ne.
Qed.

(** X5. A reply that is an object but that [HardwareData] refuses is
    answered [success = false] with [scan_count = 0], after its record was
    appended: the session is one record longer, and lookup counts it. *)
Theorem refused_reply_is_still_stored st request now_iso now_stamp api_key d e :
  environ_key = Some api_key -> api_key ≠ "" ->
  groq w (calls st) api_key (image_base64 request) = Json (PyDict d) ->
  HardwareData_new (<["timestamp" := PyStr now_stamp]> d) = Raise e ->
  let sid := session_id request in
  let before := default [] (items <$> sessions st !! sid) in
  let out := process_image st request now_iso now_stamp in
  success out.2 = false /\ scan_count out.2 = 0 /\
  exists view,
    get_session out.1 sid = (out.1, Ok view) /\
    view_items view = before ++ [<["timestamp" := PyStr now_stamp]> d] /\
    view_scan_count view = S (length before).
Proof.
  intros Hkey Hne Hreply Hrefused. cbv zeta.
  rewrite (process_image_dict _ _ _ _ _ _ Hkey Hne Hreply). cbv zeta.
  rewrite Hrefused. simpl.
  destruct (on_exception_rejected e) as [msg ->]. simpl.
  split; [done|]. split; [done|].
  unfold get_session. simpl. rewrite lookup_insert_eq.
  eexists. split; [reflexivity|]. simpl.
  destruct (sessions st !! session_id request) as [s|]; simpl;
    rewrite ?length_app; simpl; split; (done || lia).
Qed.

(** X6. With a validator that accepts strings, a reply that is an object
    whose capacity, generation, brand and speed are strings or left out is
    answered [success = true]: the data carry each string, ["N/A"] for a
    field left out and the clock of the server as timestamp, keys that are
    no field are ignored, and [scan_count] is the former length plus one. *)
Theorem accepted_reply_response st request now_iso now_stamp api_key d :
  (forall s, validate_str (PyStr s) = Some s) ->
  environ_key = Some api_key -> api_key ≠ "" ->
  groq w (calls st) api_key (image_base64 request) = Json (PyDict d) ->
  (forall k, k ∈ ["capacity"; "generation"; "brand"; "speed"] ->
             d !! k = None \/ exists s, d !! k = Some (PyStr s)) ->
  (process_image st request now_iso now_stamp).2 =
  {| success := true;
     data := Some {| capacity := text_or_NA d "capacity";
                     generation := text_or_NA d "generation";
                     brand := text_or_NA d "brand";
                     speed := text_or_NA d "speed";
                     timestamp := Some now_stamp |};
     error := None;
     scan_count := S (length (default [] (items <$> sessions st !! session_id request))) |}.
Proof.
  intros Hstr Hkey Hne Hreply Hfields.
  rewrite (process_image_dict _ _ _ _ _ _ Hkey Hne Hreply). cbv zeta. simpl.
  assert (forall k, k ∈ ["capacity"; "generation"; "brand"; "speed"] ->
            str_field validate_str (<["timestamp" := PyStr now_stamp]> d) k =
            Some (text_or_NA d k)) as Hfield.
  { intros k Hk. unfold str_field, text_or_NA.
    rewrite lookup_insert_ne.
    2:{ intros <-. revert Hk. by apply (bool_decide_unpack _). }
    destruct (Hfields k Hk) as [-> | [s ->]]; [done|apply Hstr]. }
  unfold Backend.HardwareData_new.
  rewrite !Hfield by (by apply (bool_decide_unpack _)).
  unfold opt_str_field. rewrite lookup_insert_eq. simpl. rewrite Hstr. simpl.
  by destruct (sessions st !! session_id request).
Qed.

End Submissions.

Section Lifecycle.

Context (validate_str : pyobj -> option string)
        (validation_error : gmap string pyobj -> string)
        (w : world) (environ_key : option string)
        (texts : python_text).

#[local] Abbreviation process_image :=
  (process_image validate_str validation_error w environ_key).
#[local] Abbreviation submit_all :=
  (submit_all validate_str validation_error w environ_key).
#[local] Abbreviation export_session := (export_session texts).

Lemma ensure_session_dom ss sid now :
  dom (ensure_session ss sid now) = {[sid]} ∪ dom ss.
Proof.
  unfold ensure_session. destruct (ss !! sid) as [s|] eqn:Hs.
  - symmetry. apply subseteq_union_1_L, singleton_subseteq_l. by apply elem_of_dom_2 in Hs.
  - apply dom_insert_L.
Qed.

Lemma process_image_raise st request now_iso now_stamp e :
  (extract_hardware_info w environ_key (calls st) (image_base64 request)).1 = Raise e ->
  process_image st request now_iso now_stamp =
  ({| sessions := ensure_session (sessions st) (session_id request) now_iso;
      calls := (extract_hardware_info w environ_key (calls st) (image_base64 request)).2 |},
   on_exception e).
Proof.
  intros Hx. rewrite process_image_eq. cbv zeta. unfold scan. simpl.
  destruct (extract_hardware_info _ _ _ _) as [r sent]. simpl in *. by subst r.
Qed.

(** X7. [start_session] leaves, under its identifier, a session with no
    record and the given start time, also when a session with records was
    stored there: lookup shows it empty and export answers 400. The other
    sessions are as they were and no request is sent. *)
Theorem start_session_is_fresh st now_id now_iso sid' :
  sid' ≠ now_id ->
  let out := start_session st now_id now_iso in
  out.2 = {| about_session := now_id; message := "Session started" |} /\
  get_session out.1 now_id =
    (out.1, Ok {| view_session_id := now_id; view_items := [];
                  view_scan_count := 0; view_started_at := now_iso |}) /\
  export_session out.1 now_id = (out.1, Raise (HTTPException 400 "No items to export")) /\
  sessions out.1 !! sid' = sessions st !! sid' /\
  calls out.1 = calls st.
Proof.
  intros Hne. cbv zeta. unfold start_session, get_session, Backend.export_session. simpl.
  rewrite lookup_insert_eq. simpl. split_and!; try done.
  by rewrite lookup_insert_ne.
Qed.

(** X8. Ending a stored session removes that identifier and no other from
    the store; lookup and export of it then answer 404, and ending it again
    changes nothing. *)
Theorem end_session_removes st sid s :
  sessions st !! sid = Some s ->
  let st' := (end_session st sid).1 in
  dom (sessions st') = dom (sessions st) ∖ {[sid]} /\
  calls st' = calls st /\
  get_session st' sid = (st', Raise (HTTPException 404 "Session not found")) /\
  export_session st' sid = (st', Raise (HTTPException 404 "Session not found")) /\
  (end_session st' sid).1 = st'.
Proof.
  intros Hs. cbv zeta. unfold end_session, get_session, Backend.export_session. simpl.
  rewrite Hs. simpl. rewrite lookup_delete_eq. split_and!; try done.
  apply dom_delete_L.
Qed.

(** X9. A submission under an identifier that is not stored creates the
    session with the clock of the server as start time; when it is answered
    [success = true] its [scan_count] is 1 and lookup shows exactly one
    record. *)
Theorem first_submission_creates_session st request now_iso now_stamp :
  sessions st !! session_id request = None ->
  let out := process_image st request now_iso now_stamp in
  success out.2 = true ->
  scan_count out.2 = 1 /\
  exists view record,
    get_session out.1 (session_id request) = (out.1, Ok view) /\
    view_items view = [record] /\
    view_scan_count view = 1 /\
    view_started_at view = now_iso.
Proof.
  intros Hs. cbv zeta.
  destruct (process_image_cases validate_str validation_error w environ_key
              st request now_iso now_stamp)
    as [(msg & sent & ->) | (s0 & record & sent & response & Hs0 & -> & Hresp)];
    simpl; [discriminate|].
  intros Hok. destruct (Hresp Hok) as [_ ->].
  rewrite ensure_session_lookup, Hs in Hs0. simpl in Hs0. injection Hs0 as <-.
  split; [done|]. unfold get_session. simpl. rewrite lookup_insert_eq.
  eexists. exists record. by split_and!.
Qed.

(** X10. When the extraction raises for a submission under an identifier
    that is not stored, the session is created all the same: lookup then
    answers with an empty list and [scan_count = 0] in place of 404, and
    export answers 400 in place of 404. *)
Theorem failed_first_submission_leaves_session st request now_iso now_stamp e :
  sessions st !! session_id request = None ->
  (extract_hardware_info w environ_key (calls st) (image_base64 request)).1 = Raise e ->
  let st' := (process_image st request now_iso now_stamp).1 in
  get_session st' (session_id request) =
    (st', Ok {| view_session_id := session_id request; view_items := [];
                view_scan_count := 0; view_started_at := now_iso |}) /\
  export_session st' (session_id request) =
    (st', Raise (HTTPException 400 "No items to export")).
Proof.
  intros Hs Hx. cbv zeta. rewrite (process_image_raise _ _ _ _ _ Hx).
  unfold get_session, Backend.export_session. simpl.
  by rewrite ensure_session_lookup, Hs.
Qed.

(** X11. A submission never drops a session: the identifiers stored after it
    are those stored before together with the one it was addressed to. *)
Theorem submission_keeps_sessions st request now_iso now_stamp :
  dom (sessions (process_image st request now_iso now_stamp).1) =
  {[session_id request]} ∪ dom (sessions st).
Proof.
  destruct (process_image_cases validate_str validation_error w environ_key
              st request now_iso now_stamp)
    as [(msg & sent & ->) | (s0 & record & sent & response & Hs0 & -> & _)]; simpl.
  - apply ensure_session_dom.
  - rewrite dom_insert_L, ensure_session_dom.
    by rewrite (assoc_L (∪)), (idemp_L (∪)).
Qed.

(** X12. Over any run of submissions, to whatever sessions, a stored session
    keeps its start time and its former records stay the first records of
    its list. *)
Theorem runs_keep_start_time_and_records st sid s subs :
  sessions st !! sid = Some s ->
  exists s',
    sessions (submit_all st subs) !! sid = Some s' /\
    started_at s' = started_at s /\
    items s `prefix_of` items s' /\
    length (items s) <= length (items s').
Proof.
  intros Hs.
  rewrite (submit_all_items validate_str validation_error w environ_key sid subs st s Hs).
  eexists. split; [reflexivity|]. simpl. split_and!; [done|by eexists|].
  rewrite length_app. lia.
Qed.

End Lifecycle.

(** ** Further properties of the export *)

Section Sheets.

Context (texts : python_text).

Implicit Types (ws : worksheet) (its : list (gmap string pyobj)).

#[local] Abbreviation write_item := (write_item texts).
#[local] Abbreviation fill_sheet := (fill_sheet texts).
#[local] Abbreviation build_workbook := (build_workbook texts).
#[local] Abbreviation export_session := (export_session texts).

(** X14. Whenever the export answers with a spreadsheet, its sheet is titled
    ["Hardware Inventory"] and has six columns; row 1 holds the six headers
    in bold, and no cell below row 1 is bold. The file name in the answer is
    [hardware_inventory_] followed by the identifier and [.xlsx]. *)
Theorem exported_sheet_layout st sid response :
  export_session st sid = (st, Ok response) ->
  content_disposition response =
    "attachment; filename=hardware_inventory_" +:+ sid +:+ ".xlsx" /\
  exists ws,
    sheets (body response) = [ws] /\
    title ws = "Hardware Inventory" /\
    max_column ws = 6 /\
    (forall c h, headers !! c = Some h ->
                 cells ws !! (1, S c) = Some {| value := PyStr h; bold := true |}) /\
    (forall r c x, cells ws !! (r, c) = Some x -> (bold x = true <-> r = 1)).
Proof.
  intros (s & Hs & Hne & Hall & Hsid & ->)%export_session_Ok.
  split; [reflexivity|]. eexists. split; [reflexivity|].
  rewrite put_sheet_title, put_sheet_max_column by done.
  split; [done|]. split; [done|]. split.
  - intros c h Hh. rewrite put_sheet_lookup by done. unfold sheet_cell.
    apply lookup_lt_Some in Hh as Hlt. simpl in Hlt.
    rewrite decide_True by lia. replace (S c - 1) with c by lia.
    by rewrite (nth_lookup_Some _ _ _ _ Hh).
  - intros r c x. rewrite put_sheet_lookup by done. unfold sheet_cell.
    case_decide; [|done]. destruct r as [|[|i]]; [done| |].
    + by intros [= <-].
    + destruct (items s !! i); simpl; [|done]. intros [= <-]. simpl.
      split; [done|lia].
Qed.

Lemma for_each_agree {A B : Type} (R : B -> B -> Prop)
    (body : A -> nat * B -> result A) :
  (forall a i x y, R x y -> body a (i, x) = body a (i, y)) ->
  forall l l' k a, Forall2 R l l' ->
    for_each body a (enumerate k l) = for_each body a (enumerate k l').
Proof.
  intros Hbody l l' k a Hl. revert k a.
  induction Hl as [|x y l l' Hxy Hl IH]; intros k a; simpl; [done|].
  rewrite (Hbody a k x y Hxy). destruct (body a (k, y)); [apply IH|done].
Qed.

(** X15. The export reads five keys of a record and nothing else: two lists
    of records that agree, record by record, on brand, capacity, generation,
    speed and timestamp give the same workbook, or the same exception. *)
Theorem export_reads_five_keys its its' :
  Forall2 (fun a b : gmap string pyobj =>
             forall k, k ∈ exported_keys -> a !! k = b !! k) its its' ->
  build_workbook its = build_workbook its'.
Proof.
  intros Hsame.
  assert (forall ws, fill_sheet ws its = fill_sheet ws its') as Hfill.
  { intros ws. unfold Backend.fill_sheet.
    destruct (for_each _ _ (enumerate 1 headers)) as [ws2|e]; simpl; [|done].
    apply (for_each_agree
             (fun a b : gmap string pyobj =>
                forall k, k ∈ exported_keys -> a !! k = b !! k)); [|done].
    intros a i x y Hxy. unfold Backend.write_item, dict_get. simpl.
    by rewrite !Hxy by (by apply (bool_decide_unpack _)). }
  unfold Backend.build_workbook. simpl. by rewrite Hfill.
Qed.

Section ColumnWidths.

Variable str_len : pyobj -> nat.

#[local] Abbreviation longest := (longest str_len).
#[local] Abbreviation adjust_widths := (adjust_widths str_len).

Lemma longest_from (column : list pyobj) (start : nat) :
  foldl (fun max_length v =>
           if decide (max_length < str_len v) then str_len v else max_length)
        start column =
  start `max` max_list (str_len <$> column).
Proof.
  revert start. induction column as [|v column IH]; intros start; csimpl; [lia|].
  rewrite IH. case_decide; lia.
Qed.

Lemma longest_max (column : list pyobj) :
  longest column = max_list (str_len <$> column).
Proof. unfold Backend.longest. by rewrite longest_from. Qed.

Lemma widths_loop_lookup (f : nat -> nat) (n a c : nat) (dims : gmap nat nat) :
  foldl (fun dims c => <[c := f c]> dims) dims (seq a n) !! c =
  if decide (a <= c < a + n) then Some (f c) else dims !! c.
Proof.
  revert a dims. induction n as [|n IH]; intros a dims; simpl.
  - by rewrite decide_False by lia.
  - rewrite IH. destruct (decide (c = a)) as [->|Hne].
    + rewrite decide_False by lia. rewrite decide_True by lia. apply lookup_insert_eq.
    + rewrite lookup_insert_ne by done.
      destruct (decide (S a <= c < S a + n)).
      * by rewrite decide_True by lia.
      * by rewrite decide_False by lia.
Qed.

Lemma put_sheet_column ws its c :
  cells ws = ∅ -> 1 <= c <= 6 ->
  column_cells (put_sheet ws its) c =
  (fun row => nth (c - 1) row PyNone) <$> sheet_rows its.
Proof.
  intros Hempty Hc. rewrite <- (put_sheet_values ws its Hempty).
  unfold column_cells, ws_values.
  rewrite put_sheet_max_row, put_sheet_max_column by done.
  rewrite <- list_fmap_compose. apply list_fmap_ext. intros i r _. simpl.
  assert (c = 1 \/ c = 2 \/ c = 3 \/ c = 4 \/ c = 5 \/ c = 6) as Hcases by lia.
  by destruct Hcases as [->|[->|[->|[->|[->| ->]]]]].
Qed.

(** X16. The widths set for the sheet of an export: each of the six columns
    gets the greatest [len(str(value))] among its cells, header included,
    plus 2, so that every cell of the column fits with 2 to spare; no other
    column gets a width. *)
Theorem column_widths_fit its ws c :
  fill_sheet blank its = Ok ws ->
  build_workbook its = Ok {| sheets := [ws] |} /\
  (1 <= c <= 6 ->
   exists width,
     adjust_widths ws !! c = Some width /\
     width = max_list (str_len <$> ((fun row => nth (c - 1) row PyNone) <$> sheet_rows its)) + 2 /\
     forall row, row ∈ sheet_rows its -> str_len (nth (c - 1) row PyNone) + 2 <= width) /\
  (~ 1 <= c <= 6 -> adjust_widths ws !! c = None).
Proof.
  intros [Hall ->]%fill_sheet_Ok. split; [by apply build_workbook_Ok|].
  set (ws := put_sheet blank its).
  assert (adjust_widths ws !! c =
          if decide (1 <= c < 1 + 6) then Some (longest (column_cells ws c) + 2)
          else None) as Hlookup.
  { unfold Backend.adjust_widths. rewrite decide_False.
    - subst ws. rewrite put_sheet_max_column by done.
      by rewrite (widths_loop_lookup (fun c => longest (column_cells _ c) + 2)).
    - intros Hdom. assert ((1, 1) ∈ dom (cells ws)) as Hin
        by (apply put_sheet_dom; [done|lia]).
      rewrite Hdom in Hin. by apply not_elem_of_empty in Hin. }
  split.
  - intros Hc. rewrite Hlookup, decide_True by lia.
    subst ws. rewrite put_sheet_column, longest_max by done.
    eexists. split; [reflexivity|]. split; [reflexivity|].
    intros row Hrow. apply Nat.add_le_mono_r, max_list_elem_of_le.
    apply list_elem_of_fmap. eexists. split; [reflexivity|].
    apply list_elem_of_fmap. by eexists.
  - intros Hc. rewrite Hlookup. by rewrite decide_False by lia.
Qed.

End ColumnWidths.

End Sheets.

(** ** Properties of the tool *)

Section ToolScreen.

Context (b64encode : list Byte.byte -> string) (w : world) (GROQ_API_KEY : string).

#[local] Abbreviation on_extract := (App.on_extract b64encode w GROQ_API_KEY).

(** X17. The tool shows the error box in exactly two cases: the call to the
    endpoint failed, and the box carries the text of the exception; or the
    call succeeded with an object that has an ["error"] key, and the box
    carries the value of that key. The page does not tell the two apart. *)
Theorem tool_error_box sent image x :
  (on_extract sent image).1 = Some (App.ErrorBox x) <->
  (exists e, failure_text (groq w sent GROQ_API_KEY (b64encode image)) = Some e /\
             x = PyStr e) \/
  (exists d, groq w sent GROQ_API_KEY (b64encode image) = Json (PyDict d) /\
             d !! "error" = Some x).
Proof.
  unfold App.on_extract, App.process_vision_data.
  destruct (groq w sent GROQ_API_KEY (b64encode image)) as [e|e|v]; simpl.
  - rewrite lookup_singleton_eq. split.
    + intros [= <-]. left. by exists e.
    + intros [(e' & [= <-] & ->) | (d & [=] & _)]. done.
  - rewrite lookup_singleton_eq. split.
    + intros [= <-]. left. by exists e.
    + intros [(e' & [= <-] & ->) | (d & [=] & _)]. done.
  - split.
    + destruct v as [| | | | | |d]; simpl; try discriminate.
      destruct (d !! "error") as [y|] eqn:Hy; [|discriminate].
      intros [= <-]. right. by exists d.
    + intros [(e' & [=] & _) | (d & [= ->] & Hd)]. simpl. by rewrite Hd.
Qed.

(** X18. The tool shows the metric boxes exactly when the call succeeded with
    an object that has no ["error"] key; each box then carries the value the
    object has for form_factor, brand, capacity, generation and speed, or
    ["N/A"] where it has none, and the raw JSON is the object itself. *)
Theorem tool_metrics sent image ff b c g s raw :
  (on_extract sent image).1 = Some (App.Metrics ff b c g s raw) <->
  exists d,
    groq w sent GROQ_API_KEY (b64encode image) = Json (PyDict d) /\
    d !! "error" = None /\
    raw = PyDict d /\
    ff = default (PyStr "N/A") (d !! "form_factor") /\
    b = default (PyStr "N/A") (d !! "brand") /\
    c = default (PyStr "N/A") (d !! "capacity") /\
    g = default (PyStr "N/A") (d !! "generation") /\
    s = default (PyStr "N/A") (d !! "speed").
Proof.
  assert (forall (d : gmap string pyobj) k,
            dict_get d k (PyStr "N/A") = default (PyStr "N/A") (d !! k)) as Hget.
  { intros d k. unfold dict_get. by destruct (d !! k). }
  unfold App.on_extract, App.process_vision_data.
  destruct (groq w sent GROQ_API_KEY (b64encode image)) as [e|e|v]; simpl.
  - rewrite lookup_singleton_eq. split; [discriminate|]. by intros (d & [=] & _).
  - rewrite lookup_singleton_eq. split; [discriminate|]. by intros (d & [=] & _).
  - split.
    + destruct v as [| | | | | |d]; simpl; try discriminate.
      destruct (d !! "error") as [y|] eqn:Hy; [discriminate|].
      rewrite !Hget. intros [= <- <- <- <- <- <-]. exists d. by split_and!.
    + intros (d & [= ->] & Hd & -> & -> & -> & -> & -> & ->). simpl.
      by rewrite Hd, !Hget.
Qed.

(** X19. The script raises after the button exactly when the call succeeded
    with JSON that is no object. *)
Theorem tool_raises_on_non_object sent image :
  (on_extract sent image).1 = None <->
  exists v, groq w sent GROQ_API_KEY (b64encode image) = Json v /\
            forall d, v ≠ PyDict d.
Proof.
  unfold App.on_extract, App.process_vision_data.
  destruct (groq w sent GROQ_API_KEY (b64encode image)) as [e|e|v]; simpl.
  - rewrite lookup_singleton_eq. split; [discriminate|]. by intros (v & [=] & _).
  - rewrite lookup_singleton_eq. split; [discriminate|]. by intros (v & [=] & _).
  - split.
    + intros Hnone. exists v. split; [done|]. intros d ->. simpl in Hnone.
      by destruct (d !! "error").
    + intros (v' & [= <-] & Hv). destruct v as [| | | | | |d]; try done.
      by destruct (Hv d).
Qed.

End ToolScreen.

(** *** Worked instances of the further properties *)

Section MoreInstances.

Import Sample Desk.

#[local] Abbreviation run_image := (process_image strict_str strict_error lab).

Lemma no_key_no_request_witness :
  (@None string = None \/ @None string = Some "") /\
  run_image None two_scans (to_s1 "full") "2024-01-01T10:05:00" "2024-01-01 10:05:01" =
  ({| sessions := ensure_session (sessions two_scans) "s1" "2024-01-01T10:05:00";
      calls := calls two_scans |},
   rejected "GROQ_API_KEY not configured").
Proof.
  split; [by left|].
  apply (no_key_no_request strict_str strict_error lab None two_scans (to_s1 "full")).
  by left.
Defined.

Lemma non_dict_reply_is_rejected_witness :
  groq lab (calls two_scans) "gsk_test" "array" = Json (PyList []) /\
  (forall d, PyList [] ≠ PyDict d) /\
  let out := run_image key two_scans (to_s1 "array")
               "2024-01-01T10:05:00" "2024-01-01 10:05:01" in
  success out.2 = false /\
  sessions out.1 = ensure_session (sessions two_scans) "s1" "2024-01-01T10:05:00".
Proof.
  split; [vm_compute; reflexivity|]. split; [discriminate|].
  destruct (non_dict_reply_is_rejected strict_str strict_error lab key two_scans
              (to_s1 "array") "2024-01-01T10:05:00" "2024-01-01 10:05:01"
              "gsk_test" (PyList []))
    as (Hfalse & _ & _ & _ & Hstore);
    [reflexivity|discriminate|vm_compute; reflexivity|discriminate|].
  split; assumption.
Defined.

Lemma stored_record_has_server_timestamp_witness :
  groq lab (calls two_scans) "gsk_test" "full" = Json (PyDict full_label) /\
  let st' := (run_image key two_scans (to_s1 "full")
                "2024-01-01T10:05:00" "2024-01-01 10:05:01").1 in
  exists view record,
    get_session st' "s1" = (st', Ok view) /\
    last (view_items view) = Some record /\
    record !! "timestamp" = Some (PyStr "2024-01-01 10:05:01").
Proof.
  split; [vm_compute; reflexivity|].
  destruct (stored_record_has_server_timestamp strict_str strict_error lab key two_scans
              (to_s1 "full") "2024-01-01T10:05:00" "2024-01-01 10:05:01"
              "gsk_test" full_label)
    as (view & record & Hview & Hlast & _ & Hstamp & _);
    [reflexivity|discriminate|vm_compute; reflexivity|].
  exists view, record. split_and!; assumption.
Defined.

Lemma refused_reply_is_still_stored_witness :
  HardwareData_new strict_str strict_error
    (<["timestamp" := PyStr "2024-01-01 10:05:01"]> (<["brand" := PyNone]> partial_label)) =
    Raise (Exception "validation error for HardwareData") /\
  let out := run_image key two_scans (to_s1 "null-brand")
               "2024-01-01T10:05:00" "2024-01-01 10:05:01" in
  success out.2 = false /\ scan_count out.2 = 0 /\
  exists view, get_session out.1 "s1" = (out.1, Ok view) /\ view_scan_count view = 3.
Proof.
  split; [vm_compute; reflexivity|].
  destruct (refused_reply_is_still_stored strict_str strict_error lab key two_scans
              (to_s1 "null-brand") "2024-01-01T10:05:00" "2024-01-01 10:05:01"
              "gsk_test" (<["brand" := PyNone]> partial_label)
              (Exception "validation error for HardwareData"))
    as (Hfalse & Hcount & view & Hview & _ & Hlen);
    [reflexivity|discriminate|vm_compute; reflexivity|vm_compute; reflexivity|].
  split; [assumption|]. split; [assumption|]. exists view. split; assumption.
Defined.

Lemma accepted_reply_response_witness :
  (forall s, strict_str (PyStr s) = Some s) /\
  groq lab (calls two_scans) "gsk_test" "partial" = Json (PyDict partial_label) /\
  (run_image key two_scans (to_s1 "partial")
     "2024-01-01T10:05:00" "2024-01-01 10:05:01").2 =
  {| success := true;
     data := Some {| capacity := "16GB"; generation := "N/A"; brand := "N/A";
                     speed := "N/A"; timestamp := Some "2024-01-01 10:05:01" |};
     error := None;
     scan_count := 3 |}.
Proof.
  split; [reflexivity|]. split; [vm_compute; reflexivity|].
  apply (accepted_reply_response strict_str strict_error lab key two_scans
           (to_s1 "partial") "2024-01-01T10:05:00" "2024-01-01 10:05:01"
           "gsk_test" partial_label).
  - reflexivity.
  - reflexivity.
  - discriminate.
  - vm_compute. reflexivity.
  - intros k Hk. apply list_elem_of_In in Hk. simpl in Hk.
    destruct Hk as [<-|[<-|[<-|[<-|[]]]]];
      [right; by eexists|left; reflexivity..].
Defined.

Lemma start_session_is_fresh_witness :
  "s2" ≠ "s1" /\
  let out := start_session two_sessions "s1" "2024-01-01T12:00:00" in
  get_session out.1 "s1" =
    (out.1, Ok {| view_session_id := "s1"; view_items := [];
                  view_scan_count := 0; view_started_at := "2024-01-01T12:00:00" |}) /\
  sessions out.1 !! "s2" = sessions two_sessions !! "s2".
Proof.
  split; [discriminate|].
  destruct (start_session_is_fresh Odd.sample_texts two_sessions "s1"
              "2024-01-01T12:00:00" "s2")
    as (_ & Hview & _ & Hother & _); [discriminate|].
  split; assumption.
Defined.

Lemma end_session_removes_witness :
  sessions two_sessions !! "s1" = Some s1_session /\
  let st' := (end_session two_sessions "s1").1 in
  dom (sessions st') = dom (sessions two_sessions) ∖ {["s1"]} /\
  get_session st' "s1" = (st', Raise (HTTPException 404 "Session not found")).
Proof.
  split; [vm_compute; reflexivity|].
  destruct (end_session_removes Odd.sample_texts two_sessions "s1" s1_session)
    as (Hdom & _ & Hview & _); [vm_compute; reflexivity|].
  split; assumption.
Defined.

Lemma first_submission_creates_session_witness :
  sessions two_scans !! "s2" = None /\
  let out := run_image key two_scans {| session_id := "s2"; image_base64 := "full" |}
               "2024-01-01T11:00:00" "2024-01-01 11:00:01" in
  success out.2 = true /\ scan_count out.2 = 1.
Proof.
  split; [vm_compute; reflexivity|]. split; [vm_compute; reflexivity|].
  refine (proj1 (first_submission_creates_session strict_str strict_error lab key
                   two_scans {| session_id := "s2"; image_base64 := "full" |}
                   "2024-01-01T11:00:00" "2024-01-01 11:00:01" _ _)).
  - vm_compute. reflexivity.
  - vm_compute. reflexivity.
Defined.

Lemma failed_first_submission_leaves_session_witness :
  sessions two_scans !! "s2" = None /\
  (extract_hardware_info lab key (calls two_scans) "garbled").1 =
    Raise (HTTPException 500 "Expecting value: line 1 column 1 (char 0)") /\
  let st' := (run_image key two_scans {| session_id := "s2"; image_base64 := "garbled" |}
                "2024-01-01T11:00:00" "2024-01-01 11:00:01").1 in
  export_session Odd.sample_texts st' "s2" =
    (st', Raise (HTTPException 400 "No items to export")).
Proof.
  split; [vm_compute; reflexivity|]. split; [vm_compute; reflexivity|].
  refine (proj2 (failed_first_submission_leaves_session strict_str strict_error lab key
                   Odd.sample_texts two_scans {| session_id := "s2"; image_base64 := "garbled" |}
                   "2024-01-01T11:00:00" "2024-01-01 11:00:01"
                   (HTTPException 500 "Expecting value: line 1 column 1 (char 0)") _ _)).
  - vm_compute. reflexivity.
  - vm_compute. reflexivity.
Defined.

Lemma runs_keep_start_time_and_records_witness :
  sessions two_scans !! "s1" = Some s1_session /\
  exists s',
    sessions (submit_all strict_str strict_error lab key two_scans more_scans) !! "s1" =
      Some s' /\
    started_at s' = "2024-01-01T10:00:00".
Proof.
  split; [vm_compute; reflexivity|].
  destruct (runs_keep_start_time_and_records strict_str strict_error lab key
              two_scans "s1" s1_session more_scans)
    as (s' & Hs' & Hstart & _); [vm_compute; reflexivity|].
  exists s'. split; assumption.
Defined.

Lemma exported_sheet_layout_witness :
  (exists response,
     export_session Odd.sample_texts two_scans "s1" = (two_scans, Ok response) /\
     content_disposition response = "attachment; filename=hardware_inventory_s1.xlsx" /\
     exists ws, sheets (body response) = [ws] /\
                title ws = "Hardware Inventory" /\
                max_column ws = 6).
Proof.
  assert (exists response,
            export_session Odd.sample_texts two_scans "s1" = (two_scans, Ok response))
    as [response Hresponse].
  { eexists. apply export_session_Ok. exists s1_session.
    split; [vm_compute; reflexivity|]. split; [discriminate|].
    split; [|split; reflexivity].
    repeat constructor; apply exportable_keys; split_and!; vm_compute; reflexivity. }
  exists response. split; [exact Hresponse|].
  destruct (exported_sheet_layout Odd.sample_texts two_scans "s1" response Hresponse)
    as (Hname & ws & Hsheets & Htitle & Hcols & _).
  split; [exact Hname|]. exists ws. split_and!; assumption.
Defined.

Lemma export_reads_five_keys_witness :
  Forall2 (fun a b : gmap string pyobj =>
             forall k, k ∈ exported_keys -> a !! k = b !! k)
    [full_record] [<["form_factor" := PyStr "Desktop"]> full_record] /\
  build_workbook Odd.sample_texts [full_record] =
  build_workbook Odd.sample_texts [<["form_factor" := PyStr "Desktop"]> full_record].
Proof.
  assert (Forall2 (fun a b : gmap string pyobj =>
                     forall k, k ∈ exported_keys -> a !! k = b !! k)
            [full_record] [<["form_factor" := PyStr "Desktop"]> full_record]) as Hsame.
  { constructor; [|constructor]. intros k Hk. apply list_elem_of_In in Hk. simpl in Hk.
    destruct Hk as [<-|[<-|[<-|[<-|[<-|[]]]]]]; vm_compute; reflexivity. }
  split; [exact Hsame|].
  exact (export_reads_five_keys Odd.sample_texts _ _ Hsame).
Defined.

Lemma column_widths_fit_witness :
  fill_sheet Odd.sample_texts blank (items s1_session) =
    Ok (put_sheet blank (items s1_session)) /\
  1 <= 2 <= 6 /\
  adjust_widths text_len (put_sheet blank (items s1_session)) !! 2 = Some 10.
Proof.
  assert (fill_sheet Odd.sample_texts blank (items s1_session) =
          Ok (put_sheet blank (items s1_session))) as Hfill.
  { apply fill_sheet_Ok. split; [|done].
    repeat constructor; apply exportable_keys; split_and!; vm_compute; reflexivity. }
  split; [exact Hfill|]. split; [lia|].
  destruct (column_widths_fit Odd.sample_texts text_len (items s1_session) _ 2 Hfill)
    as (_ & Hin & _).
  destruct Hin as (width & Hwidth & Heq & _); [lia|].
  rewrite Hwidth, Heq. vm_compute. reflexivity.
Defined.

Lemma tool_error_box_witness :
  groq desk 0 "" (b64encode err_bytes) =
    Json (PyDict (<["error" := PyStr "unreadable label"]> crucial)) /\
  (App.on_extract b64encode desk "" 0 err_bytes).1 =
    Some (App.ErrorBox (PyStr "unreadable label")) /\
  (App.on_extract b64encode desk "" 0 [Byte.x00]).1 =
    Some (App.ErrorBox (PyStr "Connection error.")).
Proof.
  split; [vm_compute; reflexivity|]. split.
  - apply (proj2 (tool_error_box b64encode desk "" 0 err_bytes (PyStr "unreadable label"))).
    right. eexists. split; vm_compute; reflexivity.
  - apply (proj2 (tool_error_box b64encode desk "" 0 [Byte.x00] (PyStr "Connection error."))).
    left. eexists. split; vm_compute; reflexivity.
Defined.

Lemma tool_metrics_witness :
  groq desk 0 "" (b64encode label_bytes) = Json (PyDict crucial) /\
  (App.on_extract b64encode desk "" 0 label_bytes).1 =
    Some (App.Metrics (PyStr "N/A") (PyStr "Crucial") (PyStr "N/A") (PyStr "N/A")
                      (PyStr "2666") (PyDict crucial)).
Proof.
  split; [vm_compute; reflexivity|].
  apply (proj2 (tool_metrics b64encode desk "" 0 label_bytes _ _ _ _ _ _)).
  exists crucial. split_and!; vm_compute; reflexivity.
Defined.

Lemma tool_raises_on_non_object_witness :
  groq desk 0 "" (b64encode array_bytes) = Json (PyList []) /\
  (App.on_extract b64encode desk "" 0 array_bytes).1 = None.
Proof.
  split; [vm_compute; reflexivity|].
  apply (proj2 (tool_raises_on_non_object b64encode desk "" 0 array_bytes)).
  exists (PyList []). split; [vm_compute; reflexivity|discriminate].
Defined.

End MoreInstances.

(** ** Reading the store *)

Section Reading.

Context (validate_str : pyobj -> option string)
        (validation_error : gmap string pyobj -> string)
        (w : world) (environ_key : option string)
        (texts : python_text).

#[local] Abbreviation export_session := (export_session texts).

(** X20. Lookup and export only read: whatever the identifier and whatever
    they answer, the store and the count of calls made are as before. *)
Theorem lookup_and_export_only_read st sid :
  (get_session st sid).1 = st /\ (export_session st sid).1 = st.
Proof.
  split; [|apply export_session_state].
  unfold get_session. by destruct (sessions st !! sid).
Qed.

Lemma null_field_is_refused (kw : gmap string pyobj) k :
  validate_str PyNone = None ->
  k ∈ ["capacity"; "generation"; "brand"; "speed"] ->
  kw !! k = Some PyNone ->
  HardwareData_new validate_str validation_error kw =
  Raise (Exception (validation_error kw)).
Proof.
  intros Hnone Hk Hkw. unfold HardwareData_new.
  assert (str_field validate_str kw k = None) as Hfield
    by (unfold str_field; by rewrite Hkw).
  apply list_elem_of_In in Hk. simpl in Hk.
  destruct Hk as [<-|[<-|[<-|[<-|[]]]]]; rewrite Hfield;
    repeat case_match; done.
Qed.

(** X21. With a validator that refuses [None] for a string, as Pydantic does,
    a reply that gives [null] for capacity, generation, brand or speed is
    answered [success = false]; its record is kept with the [null], and
    whenever the export then answers with a spreadsheet, the cell of that
    field is empty in the record's row: it does not hold ["N/A"]. *)
Theorem null_field_is_refused_and_exported_empty
    st request now_iso now_stamp api_key d k c :
  validate_str PyNone = None ->
  environ_key = Some api_key -> api_key ≠ "" ->
  groq w (calls st) api_key (image_base64 request) = Json (PyDict d) ->
  (k, c) ∈ [("brand", 2); ("capacity", 3); ("generation", 4); ("speed", 5)] ->
  d !! k = Some PyNone ->
  let sid := session_id request in
  let before := default [] (items <$> sessions st !! sid) in
  let out := process_image validate_str validation_error w environ_key
               st request now_iso now_stamp in
  success out.2 = false /\
  forall response,
    export_session out.1 sid = (out.1, Ok response) ->
    exists ws,
      sheets (body response) = [ws] /\
      max_row ws = length before + 2 /\
      cell_value ws (length before + 2) c = PyNone.
Proof.
  intros Hnone Hkey Hne Hreply Hkc Hd. cbv zeta.
  assert (k ≠ "timestamp" /\ k ∈ ["capacity"; "generation"; "brand"; "speed"]) as [Hk Hin].
  { apply list_elem_of_In in Hkc. simpl in Hkc.
    destruct Hkc as [[= <- <-]|[[= <- <-]|[[= <- <-]|[[= <- <-]|[]]]]];
      (split; [discriminate|by apply (bool_decide_unpack _)]). }
  rewrite (process_image_dict _ _ _ _ _ _ _ _ _ _ Hkey Hne Hreply). cbv zeta.
  rewrite (null_field_is_refused _ k Hnone Hin)
    by (by rewrite lookup_insert_ne).
  simpl. split; [done|].
  set (before := default [] (items <$> sessions st !! session_id request)).
  set (record := <["timestamp" := PyStr now_stamp]> d).
  assert (items (default (new_session now_iso) (sessions st !! session_id request))
          = before) as ->.
  { subst before. by destruct (sessions st !! session_id request). }
  intros response (s & Hs & _ & _ & _ & ->)%export_session_Ok.
  simpl in Hs. rewrite lookup_insert_eq in Hs. injection Hs as <-. cbn [items body sheets].
  eexists. split; [reflexivity|].
  rewrite put_sheet_max_row by done. rewrite length_app. simpl.
  split; [lia|].
  unfold cell_value. rewrite put_sheet_lookup by done. unfold sheet_cell.
  assert (1 <= c <= 6) as Hc.
  { apply list_elem_of_In in Hkc. simpl in Hkc.
    destruct Hkc as [[= <- <-]|[[= <- <-]|[[= <- <-]|[[= <- <-]|[]]]]]; lia. }
  rewrite decide_True by done.
  replace (length before + 2) with (S (S (length before))) by lia.
  assert ((before ++ [record]) !! length before = Some record) as ->.
  { rewrite lookup_app_r by lia. by rewrite Nat.sub_diag. }
  simpl. unfold row_of, exported.
  assert (record !! k = Some PyNone) as Hrec
    by (subst record; by rewrite lookup_insert_ne).
  apply list_elem_of_In in Hkc. simpl in Hkc.
  destruct Hkc as [[= <- <-]|[[= <- <-]|[[= <- <-]|[[= <- <-]|[]]]]];
    simpl; by rewrite Hrec.
Qed.

End Reading.

Lemma null_field_is_refused_and_exported_empty_witness :
  Sample.strict_str PyNone = None /\
  groq Sample.lab (calls Sample.two_scans) "gsk_test" "null-brand" =
    Json (PyDict (<["brand" := PyNone]> Sample.partial_label)) /\
  let out := Sample.submit Sample.two_scans "s1" "null-brand"
               "2024-01-01T10:05:00" "2024-01-01 10:05:01" in
  success out.2 = false /\
  exists response ws,
    export_session Odd.sample_texts out.1 "s1" = (out.1, Ok response) /\
    sheets (body response) = [ws] /\
    max_row ws = 4 /\
    cell_value ws 4 2 = PyNone.
Proof.
  split; [reflexivity|]. split; [vm_compute; reflexivity|].
  destruct (null_field_is_refused_and_exported_empty
              Sample.strict_str Sample.strict_error Sample.lab Sample.key
              Odd.sample_texts
              Sample.two_scans (Sample.to_s1 "null-brand")
              "2024-01-01T10:05:00" "2024-01-01 10:05:01" "gsk_test"
              (<["brand" := PyNone]> Sample.partial_label) "brand" 2)
    as (Hfalse & Hexport);
    [reflexivity|reflexivity|discriminate|vm_compute; reflexivity
    |by apply (bool_decide_unpack _)|vm_compute; reflexivity|].
  split; [exact Hfalse|].
  assert (exists response,
            export_session Odd.sample_texts
              (Sample.submit Sample.two_scans "s1" "null-brand"
                 "2024-01-01T10:05:00" "2024-01-01 10:05:01").1 "s1" =
            ((Sample.submit Sample.two_scans "s1" "null-brand"
                "2024-01-01T10:05:00" "2024-01-01 10:05:01").1, Ok response))
    as [response Hresponse].
  { eexists. apply export_session_Ok. eexists.
    split; [vm_compute; reflexivity|]. split; [discriminate|].
    split; [|split; reflexivity].
    repeat constructor; apply exportable_keys; split_and!; vm_compute; reflexivity. }
  destruct (Hexport response Hresponse) as (ws & Hsheets & Hrows & Hcell).
  exists response, ws. split_and!; assumption.
Defined.
